(** * plot_benchmark.py: the log reader and the command-line driver

    A shallow embedding of [src/plot_benchmark.py] (functions [read_log],
    [plot] and [main]) together with the parts of the Python runtime the
    script relies on: [str.strip], [str.split], [str.startswith],
    [float(str)], [int(float)], [datetime.utcfromtimestamp], text-mode
    line iteration and [print].

    Text is modelled as [string]; a character stands for the code point of
    the same number, so the model covers decoded text whose code points are
    below 256.  Floats are the binary64 values of the Standard Library's
    [SpecFloat] ([prec = 53], [emax = 1024]). *)

From Stdlib Require Import String Ascii List Bool ZArith QArith Qround Lia SpecFloat.
Import ListNotations.

Local Open Scope string_scope.
Local Open Scope Z_scope.

(** ** Exceptions and results *)

(** The exception classes that can leave the code under study.
    [FileNotFoundError] and friends are [OSError]s. *)
Inductive exn : Type :=
| ValueError
| OverflowError
| OSError.

Inductive result (A : Type) : Type :=
| Ok (a : A)
| Raise (e : exn).

Arguments Ok {A} a.
Arguments Raise {A} e.

Definition bind {A B : Type} (r : result A) (k : A -> result B) : result B :=
  match r with
  | Ok a => k a
  | Raise e => Raise e
  end.

Notation "x <- r ;; k" := (bind r (fun x => k))
  (at level 61, r at next level, right associativity).

(** ** Python [str] methods *)

Module Str.

Definition code (c : ascii) : Z := Z.of_N (N_of_ascii c).

(** [str.isspace] on one character: the Unicode whitespace code points
    below 256 (TAB..CR, FS..US, SPACE, NEL, NBSP). *)
Definition isspace (c : ascii) : bool :=
  let n := code c in
  ((9 <=? n) && (n <=? 13)) || ((28 <=? n) && (n <=? 31))
  || (n =? 32) || (n =? 133) || (n =? 160).

Definition is_empty (s : string) : bool :=
  match s with
  | EmptyString => true
  | String _ _ => false
  end.

Fixpoint lstrip (s : string) : string :=
  match s with
  | EmptyString => EmptyString
  | String c r => if isspace c then lstrip r else s
  end.

Fixpoint rstrip (s : string) : string :=
  match s with
  | EmptyString => EmptyString
  | String c r =>
      let r' := rstrip r in
      if isspace c && is_empty r' then EmptyString else String c r'
  end.

(** [s.strip()] *)
Definition strip (s : string) : string := rstrip (lstrip s).

(** [s.split()] with no separator: scan left to right, [word] holding the
    characters of the field being read; runs of whitespace separate
    fields and produce no empty field. *)
Fixpoint split_from (s : string) (word : string) : list string :=
  match s with
  | EmptyString => if is_empty word then [] else [word]
  | String c r =>
      if isspace c
      then (if is_empty word then split_from r EmptyString
            else word :: split_from r EmptyString)
      else split_from r (word ++ String c EmptyString)
  end.

Definition split (s : string) : list string := split_from s EmptyString.

(** [s.startswith(p)] *)
Definition startswith (s p : string) : bool := String.prefix p s.

(** [parts[i]]; the callers below check [len(parts)] first. *)
Definition item (parts : list string) (i : nat) : string :=
  nth i parts EmptyString.

End Str.

(** ** Python [float(str)] *)

Module PyFloat.

Definition prec : Z := 53.
Definition emax : Z := 1024.

Definition is_digit (c : ascii) : bool :=
  (48 <=? Str.code c) && (Str.code c <=? 57).

Definition digit_val (c : ascii) : Z := Str.code c - 48.

(** The whitespace [float] strips at both ends: C [isspace] in the C
    locale, and NEL/NBSP, which the decimal-and-space transformation of
    a non-ASCII [str] turns into a space first. *)
Definition float_space (c : ascii) : bool :=
  let n := Str.code c in
  ((9 <=? n) && (n <=? 13)) || (n =? 32) || (n =? 133) || (n =? 160).

Fixpoint lskip (s : string) : string :=
  match s with
  | EmptyString => EmptyString
  | String c r => if float_space c then lskip r else s
  end.

Fixpoint rskip (s : string) : string :=
  match s with
  | EmptyString => EmptyString
  | String c r =>
      let r' := rskip r in
      if float_space c && Str.is_empty r' then EmptyString else String c r'
  end.

(** Underscores are allowed between two digits only; they are removed
    before the number is read ([prev] is the previous character). *)
Fixpoint strip_underscores (prev : ascii) (s : string) : option string :=
  match s with
  | EmptyString => if Ascii.eqb prev "_" then None else Some EmptyString
  | String c r =>
      if Ascii.eqb c "_"
      then (if is_digit prev then strip_underscores c r else None)
      else if Ascii.eqb prev "_" && negb (is_digit c) then None
           else option_map (String c) (strip_underscores c r)
  end.

(** Longest prefix of decimal digits, and the rest. *)
Fixpoint span_digits (s : string) : string * string :=
  match s with
  | EmptyString => (EmptyString, EmptyString)
  | String c r =>
      if is_digit c
      then let '(d, rest) := span_digits r in (String c d, rest)
      else (EmptyString, s)
  end.

Fixpoint skip_zeros (s : string) : string :=
  match s with
  | String "0" r => skip_zeros r
  | _ => s
  end.

(** Value of a string of digits, most significant first. *)
Fixpoint digits_value (acc : Z) (s : string) : Z :=
  match s with
  | EmptyString => acc
  | String c r => digits_value (10 * acc + digit_val c) r
  end.

Definition len (s : string) : Z := Z.of_nat (String.length s).

Definition MAX_DIGITS : Z := 1000000000.
Definition MAX_ABS_EXP : Z := 1100000000.

(** Optional sign: [true] for a leading minus. *)
Definition take_sign (s : string) : bool * string :=
  match s with
  | String "-" r => (true, r)
  | String "+" r => (false, r)
  | _ => (false, s)
  end.

(** Correctly rounded (nearest, ties to even) binary64 value of
    [d * 10^x] for a positive integer [d]; overflow gives an infinity
    and underflow a zero, both with the sign kept. *)
Definition round_decimal (sign : bool) (d : positive) (x : Z) : spec_float :=
  match x with
  | Zneg k =>
      let '(mz, ez, lz) :=
        SFdiv_core_binary prec emax (Zpos d) 0 (Zpos (Pos.pow 10 k)) 0 in
      binary_round_aux prec emax sign mz ez lz
  | Z0 => binary_round prec emax sign d 0
  | Zpos k => binary_round prec emax sign (d * Pos.pow 10 k) 0
  end.

Definition decimal_value (sign : bool) (d : Z) (x : Z) : spec_float :=
  match d with
  | Zpos p => round_decimal sign p x
  | _ => S754_zero sign
  end.

(** The exponent part, read after the digits: [(e, rest)].  An [e] that
    no digit follows is not part of the number, and stays in the rest. *)
Definition take_exponent (s : string) : Z * string :=
  match s with
  | String c r =>
      if Ascii.eqb c "e" || Ascii.eqb c "E" then
        let '(esign, r1) := take_sign r in
        let '(ds, rest) := span_digits r1 in
        if Str.is_empty ds then (0, s)
        else
          let sig := skip_zeros ds in
          let abs_exp := digits_value 0 sig in
          let e := if (9 <? len sig) || (MAX_ABS_EXP <? abs_exp)
                   then MAX_ABS_EXP else abs_exp in
          (if esign then - e else e, rest)
      else (0, s)
  | EmptyString => (0, s)
  end.

(** The decimal reader of the runtime ([strtod]): the value of the
    longest prefix that is a number, and what follows it; [None] when no
    prefix is a number. *)
Definition strtod (s : string) : option (spec_float * string) :=
  let '(sign, s1) := take_sign s in
  let '(ip, s2) := span_digits s1 in
  let '(fp, s3) :=
    match s2 with
    | String "." r => span_digits r
    | _ => (EmptyString, s2)
    end in
  if Str.is_empty ip && Str.is_empty fp then None
  else
    let ip' := skip_zeros ip in
    let ndigits := if Str.is_empty ip' then len (skip_zeros fp)
                   else len ip' + len fp in
    let fraclen := len fp in
    if (MAX_DIGITS <? ndigits) || (MAX_DIGITS <? fraclen) then None
    else
      let '(e, rest) := take_exponent s3 in
      Some (decimal_value sign (digits_value 0 (ip ++ fp)) (e - fraclen),
            rest).

Definition lower (c : ascii) : ascii :=
  let n := Str.code c in
  if (65 <=? n) && (n <=? 90) then ascii_of_N (Z.to_N (n + 32)) else c.

(** Case-insensitive match of the lower-case word [w] at the head of
    [s]: the rest of [s] after the word. *)
Fixpoint match_word (w s : string) : option string :=
  match w with
  | EmptyString => Some s
  | String a w' =>
      match s with
      | String c r => if Ascii.eqb (lower c) a then match_word w' r else None
      | EmptyString => None
      end
  end.

(** [inf], [infinity] and [nan], with an optional sign. *)
Definition parse_inf_or_nan (s : string) : option (spec_float * string) :=
  let '(sign, s1) := take_sign s in
  match match_word "inf" s1 with
  | Some r =>
      match match_word "inity" r with
      | Some r' => Some (S754_infinity sign, r')
      | None => Some (S754_infinity sign, r)
      end
  | None =>
      match match_word "nan" s1 with
      | Some r => Some (S754_nan, r)
      | None => None
      end
  end.

Definition ascii_strtod (s : string) : option (spec_float * string) :=
  match strtod s with
  | Some r => Some r
  | None => parse_inf_or_nan s
  end.

(** [float(s)] for a [str]: the whole string, after stripping and
    removing underscores, must be a number. *)
Definition float (s : string) : result spec_float :=
  match strip_underscores "000" (rskip (lskip s)) with
  | None => Raise ValueError
  | Some t =>
      match ascii_strtod t with
      | Some (x, EmptyString) => Ok x
      | _ => Raise ValueError
      end
  end.

(** [int(x)] for a float: truncation toward zero. *)
Definition int (x : spec_float) : result Z :=
  match x with
  | S754_nan => Raise ValueError
  | S754_infinity _ => Raise OverflowError
  | S754_zero _ => Ok 0
  | S754_finite s m e => Ok (cond_Zopp s (Z.shiftl (Zpos m) e))
  end.

(** The real value of a float: [None] for NaN and the infinities. *)
Definition to_Q (x : spec_float) : option Q :=
  match x with
  | S754_zero _ => Some 0%Q
  | S754_finite s m e =>
      let q := match e with
               | Zneg k => Qmake (Zpos m) (Pos.pow 2 k)
               | _ => inject_Z (Zpos m * 2 ^ e)
               end in
      Some (if s then Qopp q else q)
  | _ => None
  end.

End PyFloat.

(** ** [datetime.utcfromtimestamp] *)

Module Datetime.

(** A naive [datetime]; the script only builds whole-second values. *)
Record datetime : Type := mkdatetime {
  year : Z; month : Z; day : Z;
  hour : Z; minute : Z; second : Z;
  microsecond : Z
}.

Definition DI400Y : Z := 146097.
Definition DI100Y : Z := 36524.
Definition DI4Y : Z := 1461.

Definition DAYS_IN_MONTH : list Z :=
  [31; 28; 31; 30; 31; 30; 31; 31; 30; 31; 30; 31].
Definition DAYS_BEFORE_MONTH : list Z :=
  [0; 31; 59; 90; 120; 151; 181; 212; 243; 273; 304; 334].

Definition table (t : list Z) (m : Z) : Z := nth (Z.to_nat (m - 1)) t 0.

(** Proleptic Gregorian ordinal (1 = 0001-01-01) to (year, month, day);
    divisions round toward minus infinity, as Python's [divmod]. *)
Definition ord2ymd (ordinal : Z) : Z * Z * Z :=
  let n := ordinal - 1 in
  let n400 := n / DI400Y in
  let n := n mod DI400Y in
  let n100 := n / DI100Y in
  let n := n mod DI100Y in
  let n4 := n / DI4Y in
  let n := n mod DI4Y in
  let n1 := n / 365 in
  let n := n mod 365 in
  let y := n400 * 400 + 1 + n100 * 100 + n4 * 4 + n1 in
  if (n1 =? 4) || (n100 =? 4) then (y - 1, 12, 31)
  else
    let leapyear := (n1 =? 3) && (negb (n4 =? 24) || (n100 =? 3)) in
    let m := Z.shiftr (n + 50) 5 in
    let preceding :=
      table DAYS_BEFORE_MONTH m + (if (2 <? m) && leapyear then 1 else 0) in
    if n <? preceding
    then
      let m' := m - 1 in
      let preceding' :=
        preceding
        - (table DAYS_IN_MONTH m' + (if (m' =? 2) && leapyear then 1 else 0)) in
      (y, m', n - preceding' + 1)
    else (y, m, n - preceding + 1).

(** Ordinal of 1970-01-01. *)
Definition EPOCH_ORDINAL : Z := 719163.

(** [datetime.utcfromtimestamp(t)] for an [int] [t], on a platform with
    a 64-bit [time_t] and a C library whose [gmtime] fails when the year
    does not fit an [int]: the three ways out of range raise
    [OverflowError], [OSError] and [ValueError] in turn. *)
Definition utcfromtimestamp (t : Z) : result datetime :=
  if (t <? - 2 ^ 63) || (2 ^ 63 <=? t) then Raise OverflowError
  else
    let '(y, m, d) := ord2ymd (t / 86400 + EPOCH_ORDINAL) in
    let s := t mod 86400 in
    if (y - 1900 <? - 2 ^ 31) || (2 ^ 31 <=? y - 1900) then Raise OSError
    else if (y <? 1) || (9999 <? y) then Raise ValueError
    else Ok (mkdatetime y m d (s / 3600) (s mod 3600 / 60) (s mod 60) 0).

End Datetime.

Import Datetime.

(** ** The environment of a run *)

(** What the script sees of the file system: the decoded text of the file
    at a path, or the exception that opening or decoding it raises; and,
    for a path an image is saved to, the exception the write raises, if
    any. *)
Record env : Type := mkenv {
  open_text : string -> result string;
  savefig_error : string -> option exn
}.

(** Text-mode line iteration with universal newlines: a line ends at
    LF, CR or CR LF, and is handed over with the ending
    translated to LF; a last line may lack it. *)
Fixpoint readlines_from (s : string) (cur : string) : list string :=
  match s with
  | EmptyString => if Str.is_empty cur then [] else [cur]
  | String c r =>
      if Ascii.eqb c "010" then (cur ++ String "010" "") :: readlines_from r ""
      else if Ascii.eqb c "013" then
        match r with
        | String "010" r' => (cur ++ String "010" "") :: readlines_from r' ""
        | _ => (cur ++ String "010" "") :: readlines_from r ""
        end
      else readlines_from r (cur ++ String c "")
  end.

Definition readlines (text : string) : list string := readlines_from text "".

(** ** [read_log] *)

Definition series : Type := (list datetime * list spec_float)%type.

(** What one iteration of the loop body does. *)
Inductive step : Type :=
| Continue                                   (* one of the [continue]s *)
| Append (t : datetime) (speed : spec_float) (* the two [append]s *)
| Abort (e : exn).                           (* an exception leaves the loop *)

(** The body of the [try]: [epoch] is computed before [speed]. *)
Definition parse_fields (parts : list string) : result (Z * spec_float) :=
  x <- PyFloat.float (Str.item parts 0) ;;
  epoch <- PyFloat.int x ;;
  speed <- PyFloat.float (Str.item parts 2) ;;
  Ok (epoch, speed).

Definition loop_body (line : string) : step :=
  let line := Str.strip line in
  if Str.is_empty line then Continue
  else if Str.startswith line "monitor start" || Str.startswith line "[iostat]"
  then Continue
  else
    let parts := Str.split line in
    if (Z.of_nat (List.length parts) <? 3) then Continue
    else
      match parse_fields parts with
      | Raise ValueError => Continue          (* except ValueError: continue *)
      | Raise e => Abort e
      | Ok (epoch, speed) =>
          match utcfromtimestamp epoch with
          | Raise e => Abort e
          | Ok t => Append t speed
          end
      end.

(** The [for] loop, with the two lists it appends to. *)
Fixpoint read_lines (lines : list string) (ts : list datetime)
    (mbps : list spec_float) : result series :=
  match lines with
  | [] => Ok (ts, mbps)
  | line :: rest =>
      match loop_body line with
      | Continue => read_lines rest ts mbps
      | Append t speed => read_lines rest (ts ++ [t]) (mbps ++ [speed])
      | Abort e => Raise e
      end
  end.

Definition read_log (w : env) (path : string) : result series :=
  text <- open_text w path ;;
  read_lines (readlines text) [] [].

(** ** Output and [plot] *)

(** One call of [plot], with the fixed settings of the figure. *)
Record plot_call : Type := mkplot {
  plot_ts : list datetime;
  plot_mbps : list spec_float;
  plot_title : string;
  plot_out_path : string;
  plot_dpi : Z;
  plot_format : string
}.

(** What a run has written so far. *)
Record io : Type := mkio {
  stdout : string;
  stderr : string;
  plot_calls : list plot_call;   (* calls of [plot], oldest first *)
  saved : list string            (* image files written, oldest first *)
}.

Definition io0 : io := mkio "" "" [] [].

(** Computations that write output and may raise. *)
Definition M (A : Type) : Type := io -> result A * io.

Definition ret {A : Type} (a : A) : M A := fun o => (Ok a, o).

Definition mbind {A B : Type} (m : M A) (k : A -> M B) : M B :=
  fun o =>
    match m o with
    | (Ok a, o') => k a o'
    | (Raise e, o') => (Raise e, o')
    end.

Definition lift {A : Type} (r : result A) : M A := fun o => (r, o).

Notation "x <~ m ;; k" := (mbind m (fun x => k))
  (at level 61, m at next level, right associativity).
Notation "m ;;; k" := (mbind m (fun _ => k))
  (at level 61, right associativity).

Definition newline : string := String "010" "".

Definition print_stdout (msg : string) : M unit :=
  fun o => (Ok tt, mkio (stdout o ++ msg ++ newline) (stderr o)
                        (plot_calls o) (saved o)).

Definition print_stderr (msg : string) : M unit :=
  fun o => (Ok tt, mkio (stdout o) (stderr o ++ msg ++ newline)
                        (plot_calls o) (saved o)).

(** [plot]: the figure is drawn and then saved; a failing write raises. *)
Definition plot (w : env) (ts : list datetime) (mbps : list spec_float)
    (title out_path : string) : M unit :=
  fun o =>
    let call := mkplot ts mbps title out_path 150 "jpg" in
    match savefig_error w out_path with
    | Some e =>
        (Raise e, mkio (stdout o) (stderr o) (plot_calls o ++ [call]) (saved o))
    | None =>
        (Ok tt, mkio (stdout o) (stderr o) (plot_calls o ++ [call])
                     (saved o ++ [out_path]))
    end.

(** ** [main] *)

(** [sys.argv] is [prog :: args]: a script is always started with its own
    name in [sys.argv[0]]. *)
Definition main (w : env) (prog : string) (args : list string) : M Z :=
  match args with
  | [log_path; out_path] =>
      s <~ lift (read_log w log_path) ;;
      let '(ts, mbps) := s in
      match ts with
      | [] =>
          print_stderr "No data points found." ;;;
          ret 1
      | _ :: _ =>
          plot w ts mbps ("Write speed: " ++ log_path) out_path ;;;
          print_stdout ("Wrote " ++ out_path) ;;;
          ret 0
      end
  | _ =>
      print_stderr ("Usage: " ++ prog ++ " <log-file> <output.jpg>") ;;;
      ret 1
  end.

(** * The vocabulary of the specification *)

Local Open Scope list_scope.

(** Truncation of a rational toward zero, stated independently of the code. *)
Definition Qtrunc (q : Q) : Z :=
  if Qle_bool 0 q then Qfloor q else Qceiling q.

(** The whitespace-separated fields of a line. *)
Definition fields (line : string) : list string := Str.split (Str.strip line).

(** Field [i] of a line. *)
Definition field (line : string) (i : nat) : string := Str.item (fields line) i.

(** Nothing is left of the line once stripped. *)
Definition blank (line : string) : bool := Str.is_empty (Str.strip line).

(** The stripped line starts with one of the two sentinel prefixes. *)
Definition sentinel (line : string) : bool :=
  String.prefix "monitor start" (Str.strip line)
  || String.prefix "[iostat]" (Str.strip line).

(** Fewer than three fields. *)
Definition short (line : string) : bool :=
  Z.of_nat (List.length (fields line)) <? 3.

(** [float] accepts the text. *)
Definition numeric (s : string) : bool :=
  match PyFloat.float s with
  | Ok _ => true
  | Raise _ => false
  end.

(** The two kinds of float that are no real number. *)
Definition is_nan (x : spec_float) : bool :=
  match x with
  | S754_nan => true
  | _ => false
  end.

Definition is_inf (x : spec_float) : bool :=
  match x with
  | S754_infinity _ => true
  | _ => false
  end.

(** The lines the loop looks into: not blank, no sentinel prefix, three
    fields or more. *)
Definition candidate (line : string) : bool :=
  negb (blank line) && negb (sentinel line) && negb (short line).

(** A well-formed line, as the specification words it: a candidate whose
    fields 0 and 2 are both accepted by [float]. *)
Definition well_formed (line : string) : bool :=
  candidate line && numeric (field line 0) && numeric (field line 2).

(** A line that yields a sample: well-formed, with a field 0 that is not
    a NaN. *)
Definition sample_line (line : string) : bool :=
  candidate line
  && match PyFloat.float (field line 0) with
     | Ok x => negb (is_nan x)
     | Raise _ => false
     end
  && numeric (field line 2).

(** The sample a line stands for: the time stamp is the UTC date of the
    truncated field 0, the speed is field 2. *)
Definition sample_of (line : string) (s : datetime * spec_float) : Prop :=
  exists x q,
    PyFloat.float (field line 0) = Ok x /\
    PyFloat.to_Q x = Some q /\
    utcfromtimestamp (Qtrunc q) = Ok (fst s) /\
    PyFloat.float (field line 2) = Ok (snd s).

(** What the loop body does with a line, as two tests. *)
Definition appends (line : string) : bool :=
  match loop_body line with
  | Append _ _ => true
  | _ => false
  end.

Definition aborts (line : string) : bool :=
  match loop_body line with
  | Abort _ => true
  | _ => false
  end.

(** Time stamps of 0001-01-01 00:00:00 and 9999-12-31 23:59:59. *)
Definition MIN_TIMESTAMP : Z := -62135596800.
Definition MAX_TIMESTAMP : Z := 253402300799.

(** The year [ord2ymd] gives. *)
Definition year_of_ordinal (ordinal : Z) : Z := fst (fst (ord2ymd ordinal)).

(** A line whose field 0, when [float] accepts it, is a NaN or a time
    stamp of the years 1 to 9999. *)
Definition in_range (line : string) : bool :=
  negb (candidate line)
  || match PyFloat.float (field line 0) with
     | Raise _ => true
     | Ok x =>
         match PyFloat.to_Q x with
         | Some q =>
             (MIN_TIMESTAMP <=? Qtrunc q) && (Qtrunc q <=? MAX_TIMESTAMP)
         | None => is_nan x
         end
     end.

(** The environment of the examples: one log file, every path writable. *)
Definition one_file (text : string) : env :=
  mkenv (fun _ => Ok text) (fun _ => None).

(** The log of the first scenario, and the series it is read as:
    2023-11-14 22:13:20 and 22:14:20 UTC, 12.5 and 13.0 MB/s. *)
Definition two_samples : string :=
  ("1700000000 x 12.5" ++ newline ++ "1700000060 x 13.0" ++ newline)%string.

Definition two_samples_series : series :=
  ([mkdatetime 2023 11 14 22 13 20 0; mkdatetime 2023 11 14 22 14 20 0],
   [S754_finite false 7036874417766400 (-49);
    S754_finite false 7318349394477056 (-49)]).

(** A line the specification lists as excluded: blank, with a sentinel
    prefix, with fewer than three fields, or with a field 0 or a field 2
    that [float] rejects. *)
Definition malformed (line : string) : bool :=
  blank line || sentinel line || short line
  || negb (numeric (field line 0)) || negb (numeric (field line 2)).

(** Field 0 is accepted by [float] as an infinity. *)
Definition infinite_field0 (line : string) : bool :=
  match PyFloat.float (field line 0) with
  | Ok x => is_inf x
  | Raise _ => false
  end.

(** The usage message of [main]. *)
Definition usage (prog : string) : string :=
  ("Usage: " ++ prog ++ " <log-file> <output.jpg>")%string.

(** The output [o] after [msg] was printed to stderr. *)
Definition with_stderr (o : io) (msg : string) : io :=
  mkio (stdout o) (stderr o ++ msg ++ newline)%string (plot_calls o) (saved o).

(** The rational a float stands for is [q]. *)
Definition has_value (x : spec_float) (q : Q) : Prop :=
  exists q', PyFloat.to_Q x = Some q' /\ Qeq q' q.

(** No line ending inside the text. *)
Fixpoint no_linebreak (s : string) : bool :=
  match s with
  | EmptyString => true
  | String c r =>
      negb (Ascii.eqb c "010") && negb (Ascii.eqb c "013") && no_linebreak r
  end.

(** The ways a last line can end: not at all, LF, CR, CR LF. *)
Definition line_endings : list string :=
  [EmptyString; String "010" ""; String "013" ""; String "013" (String "010" "")].

(** Two lines that differ in field 1 and in the fields after field 2. *)
Definition sample_plain : string := ("1700000000 x 12.5" ++ newline)%string.
Definition sample_other_fields : string :=
  ("1700000000 sda 12.5 MB/s 4096" ++ newline)%string.

(** The sign bit of a float; a NaN is given none. *)
Definition signbit (x : spec_float) : bool :=
  match x with
  | S754_zero s | S754_infinity s | S754_finite s _ _ => s
  | S754_nan => false
  end.

(** No whitespace inside the text. *)
Fixpoint no_space (s : string) : bool :=
  match s with
  | EmptyString => true
  | String c r => negb (Str.isspace c) && no_space r
  end.

(** ** The script as a whole, and more words on lines *)

(** [raise SystemExit(main())] under the [__main__] guard: the exit
    status is what [main] returns; an exception that leaves [main] ends
    the run with a traceback on stderr and the status 1.  The text of the
    traceback is left open. *)
Definition script (traceback : exn -> string) (w : env) (prog : string)
    (args : list string) (o : io) : Z * io :=
  match main w prog args o with
  | (Ok code, o') => (code, o')
  | (Raise e, o') =>
      (1, mkio (stdout o') (stderr o' ++ traceback e)%string
               (plot_calls o') (saved o'))
  end.

(** What the loop reads of a line it looks into: its fields 0 and 2. *)
Definition key (line : string) : string * string :=
  (field line 0, field line 2).

(** A line that ends the loop with an exception: one the loop looks
    into, whose field 0 is an infinity, or a finite number that truncates
    to a time stamp outside the years 1 to 9999 while field 2 is accepted
    by [float]. *)
Definition fatal (line : string) : bool :=
  candidate line
  && match PyFloat.float (field line 0) with
     | Ok x =>
         match PyFloat.to_Q x with
         | Some q =>
             numeric (field line 2)
             && negb ((MIN_TIMESTAMP <=? Qtrunc q)
                      && (Qtrunc q <=? MAX_TIMESTAMP))
         | None => is_inf x
         end
     | Raise _ => false
     end.

(** Whitespace only. *)
Fixpoint whitespace (s : string) : bool :=
  match s with
  | EmptyString => true
  | String c r => Str.isspace c && whitespace r
  end.

(** No carriage return inside the text. *)
Fixpoint no_cr (s : string) : bool :=
  match s with
  | EmptyString => true
  | String c r => negb (Ascii.eqb c "013") && no_cr r
  end.

(** The text with every LF turned into CR LF. *)
Fixpoint to_crlf (s : string) : string :=
  match s with
  | EmptyString => EmptyString
  | String c r =>
      if Ascii.eqb c "010" then String "013" (String "010" (to_crlf r))
      else String c (to_crlf r)
  end.

(** The log of the first scenario with sentinel and blank lines,
    indentation and other fields added. *)
Definition noisy_two_samples : string :=
  ("monitor start 1 2" ++ newline ++ "  1700000000  sda 12.5 MB/s"
   ++ newline ++ newline ++ "1700000060 sdb 13.0" ++ newline
   ++ "[iostat] 5 6 7")%string.

(** An environment that holds the listed files, path and text, and no
    other; every path can be written. *)
Fixpoint lookup_file (files : list (string * string)) (path : string)
  : result string :=
  match files with
  | [] => Raise OSError
  | (p, text) :: rest =>
      if String.eqb p path then Ok text else lookup_file rest path
  end.

Definition env_of (files : list (string * string)) : env :=
  mkenv (lookup_file files) (fun _ => None).

(** A run of decimal digits, and one that is not empty. *)
Fixpoint digits_only (s : string) : bool :=
  match s with
  | EmptyString => true
  | String c r => PyFloat.is_digit c && digits_only r
  end.

Definition all_digits (s : string) : bool :=
  negb (Str.is_empty s) && digits_only s.

(** * Properties *)

(** ** Truncation toward zero *)

Lemma Qtrunc_pos_frac (n : positive) (d : positive) :
  Qtrunc (Zpos n # d) = Zpos n / Zpos d.
Proof. reflexivity. Qed.

Lemma Qtrunc_neg_frac (n : positive) (d : positive) :
  Qtrunc (Qopp (Zpos n # d)) = - (Zpos n / Zpos d).
Proof. reflexivity. Qed.

Lemma Qtrunc_inject_Z (z : Z) : Qtrunc (inject_Z z) = z.
Proof.
  unfold Qtrunc. destruct (Qle_bool 0 (inject_Z z)).
  - apply Qfloor_Z.
  - apply Qceiling_Z.
Qed.

Lemma Qtrunc_opp_inject_Z (z : Z) : Qtrunc (Qopp (inject_Z z)) = - z.
Proof.
  replace (Qopp (inject_Z z)) with (inject_Z (- z)) by reflexivity.
  apply Qtrunc_inject_Z.
Qed.

(** [Qtrunc q] is the integer next to [q] on the side of zero. *)
Lemma Qtrunc_toward_zero (q : Q) :
  ((0 <= q -> inject_Z (Qtrunc q) <= q /\ q < inject_Z (Qtrunc q + 1))
   /\ (q < 0 -> inject_Z (Qtrunc q - 1) < q /\ q <= inject_Z (Qtrunc q)))%Q.
Proof.
  unfold Qtrunc. destruct (Qle_bool 0 q) eqn:H.
  - split.
    + intros _. split; [apply Qfloor_le | apply Qlt_floor].
    + intros Hneg. apply Qle_bool_iff in H.
      exfalso. exact (Qlt_not_le _ _ Hneg H).
  - split.
    + intros Hpos. apply Qle_bool_iff in Hpos. congruence.
    + intros _. split; [apply Qceiling_lt | apply Qle_ceiling].
Qed.

(** [int(x)] is the truncation toward zero of the real value of [x], and
    fails exactly on the values that have none. *)
Lemma int_truncates (x : spec_float) (n : Z) :
  PyFloat.int x = Ok n <->
  exists q, PyFloat.to_Q x = Some q /\ n = Qtrunc q.
Proof.
  destruct x as [s | s | | s m e]; simpl.
  - split.
    + intros H. injection H as <-. exists 0%Q. split; reflexivity.
    + intros (q & Hq & ->). injection Hq as <-. reflexivity.
  - split; [discriminate | intros (q & Hq & _); discriminate].
  - split; [discriminate | intros (q & Hq & _); discriminate].
  - assert (E : cond_Zopp s (Z.shiftl (Zpos m) e) =
                Qtrunc (if s
                        then Qopp match e with
                                  | Zneg k => Zpos m # Pos.pow 2 k
                                  | _ => inject_Z (Zpos m * 2 ^ e)
                                  end
                        else match e with
                             | Zneg k => Zpos m # Pos.pow 2 k
                             | _ => inject_Z (Zpos m * 2 ^ e)
                             end)).
    { destruct e as [| k | k].
      - rewrite Z.shiftl_0_r, Z.pow_0_r, Z.mul_1_r.
        destruct s; [rewrite Qtrunc_opp_inject_Z | rewrite Qtrunc_inject_Z];
          reflexivity.
      - rewrite Z.shiftl_mul_pow2 by lia.
        destruct s; [rewrite Qtrunc_opp_inject_Z | rewrite Qtrunc_inject_Z];
          reflexivity.
      - change (Z.shiftl (Zpos m) (Zneg k)) with (Z.shiftr (Zpos m) (Zpos k)).
        rewrite Z.shiftr_div_pow2 by lia.
        destruct s; [rewrite Qtrunc_neg_frac | rewrite Qtrunc_pos_frac];
          rewrite Pos2Z.inj_pow; reflexivity. }
    split.
    + intros H. injection H as <-. eexists. split; [reflexivity | exact E].
    + intros (q & Hq & ->). injection Hq as <-. now rewrite E.
Qed.

(** ** The lines of a log, in the words of the specification *)

(** The loop body, case by case. *)
Lemma loop_body_eq (line : string) :
  loop_body line =
  if candidate line then
    match PyFloat.float (field line 0) with
    | Raise _ => Continue
    | Ok x =>
        match PyFloat.int x with
        | Raise ValueError => Continue
        | Raise e => Abort e
        | Ok epoch =>
            match PyFloat.float (field line 2) with
            | Raise _ => Continue
            | Ok speed =>
                match utcfromtimestamp epoch with
                | Raise e => Abort e
                | Ok t => Append t speed
                end
            end
        end
    end
  else Continue.
Proof.
  unfold loop_body, candidate, blank, sentinel, short, field, fields,
    Str.startswith, parse_fields.
  destruct (Str.is_empty (Str.strip line)); [reflexivity |].
  destruct (String.prefix "monitor start" (Str.strip line)
            || String.prefix "[iostat]" (Str.strip line)); [reflexivity |].
  destruct (Z.of_nat (List.length (Str.split (Str.strip line))) <? 3);
    [reflexivity |].
  cbn [negb andb bind].
  assert (V : forall s, PyFloat.float s = Raise ValueError \/
                        exists x, PyFloat.float s = Ok x).
  { intros s. unfold PyFloat.float.
    destruct (PyFloat.strip_underscores _ _); [| now left].
    destruct (PyFloat.ascii_strtod _) as [[x [| c r]] |];
      [right; now exists x | now left | now left]. }
  destruct (V (Str.item (Str.split (Str.strip line)) 0)) as [-> | [x ->]];
    [reflexivity |].
  cbn [bind].
  destruct (PyFloat.int x) as [n | e]; cbn [bind]; [| reflexivity].
  destruct (V (Str.item (Str.split (Str.strip line)) 2)) as [-> | [v ->]];
    reflexivity.
Qed.

(** [float] raises nothing but [ValueError]. *)
Lemma float_raises (s : string) (e : exn) :
  PyFloat.float s = Raise e -> e = ValueError.
Proof.
  unfold PyFloat.float.
  destruct (PyFloat.strip_underscores _ _); [| now intros [= <-]].
  destruct (PyFloat.ascii_strtod _) as [[x [| c r]] |];
    [discriminate | now intros [= <-] | now intros [= <-]].
Qed.

(** A line is appended exactly when it is a sample line whose time stamp
    [datetime] can hold; the sample is the one the line stands for. *)
Lemma loop_body_Append (line : string) (t : datetime) (v : spec_float) :
  loop_body line = Append t v <->
  sample_line line = true /\ sample_of line (t, v).
Proof.
  rewrite loop_body_eq. unfold sample_line, sample_of, numeric.
  destruct (candidate line); cbn [andb];
    [| split; [discriminate | intros [[=] _]]].
  destruct (PyFloat.float (field line 0)) as [x | e];
    [| split; [discriminate | intros [[=] _]]].
  destruct (PyFloat.int x) as [n | e] eqn:Hint.
  - apply int_truncates in Hint. destruct Hint as (q & Hq & ->).
    destruct (PyFloat.float (field line 2)) as [speed | e].
    + destruct (utcfromtimestamp (Qtrunc q)) as [t' | e] eqn:Hutc.
      * split.
        -- intros [= <- <-]. split.
           ++ destruct x; try reflexivity; discriminate.
           ++ exists x, q. cbn [fst snd]. auto.
        -- intros (_ & x' & q' & [= <-] & Hq' & Ht & [= <-]).
           cbn [fst snd] in Ht. rewrite Hq in Hq'. injection Hq' as <-.
           rewrite Hutc in Ht. now injection Ht as <-.
      * split; [discriminate |].
        intros (_ & x' & q' & [= <-] & Hq' & Ht & _).
        cbn [fst] in Ht. rewrite Hq in Hq'. injection Hq' as <-.
        rewrite Hutc in Ht. discriminate.
    + split; [destruct e; discriminate |].
      intros (H & _). rewrite andb_false_r in H. discriminate.
  - assert (Hq : PyFloat.to_Q x = None).
    { destruct x; try reflexivity; discriminate. }
    split.
    + destruct e; discriminate.
    + intros (_ & x' & q' & [= <-] & Hq' & _). rewrite Hq in Hq'. discriminate.
Qed.

(** ** The loop *)

(** The lists the loop starts from are only ever extended. *)
Lemma read_lines_acc (lines : list string) :
  forall ts mbps,
    read_lines lines ts mbps =
    match read_lines lines [] [] with
    | Ok (ts', mbps') => Ok ((ts ++ ts')%list, (mbps ++ mbps')%list)
    | Raise e => Raise e
    end.
Proof.
  induction lines as [| line rest IH]; intros ts mbps; simpl.
  - now rewrite !app_nil_r.
  - destruct (loop_body line) as [| t v | e].
    + apply IH.
    + rewrite (IH (ts ++ [t]) (mbps ++ [v])), (IH [t] [v]).
      destruct (read_lines rest [] []) as [[ts' mbps'] | e]; [| reflexivity].
      now rewrite <- !app_assoc.
    + reflexivity.
Qed.

(** When the loop runs to its end, the two lists hold, index by index and
    in the order of the lines, what the appending lines appended. *)
Lemma read_lines_Ok (lines : list string) :
  forall ts mbps,
    read_lines lines [] [] = Ok (ts, mbps) ->
    List.length ts = List.length mbps /\
    Forall2 (fun line s => loop_body line = Append (fst s) (snd s))
            (filter appends lines) (combine ts mbps).
Proof.
  induction lines as [| line rest IH]; intros ts mbps; simpl.
  - intros [= <- <-]. split; [reflexivity | constructor].
  - unfold appends at 1. destruct (loop_body line) as [| t v | e] eqn:Hb.
    + apply IH.
    + rewrite read_lines_acc.
      destruct (read_lines rest [] []) as [[ts' mbps'] | e]; [| discriminate].
      intros [= <- <-]. destruct (IH ts' mbps' eq_refl) as [Hl HF].
      split; [simpl; now rewrite Hl |].
      simpl. constructor; assumption.
    + discriminate.
Qed.

(** The loop runs to its end exactly when no line aborts it. *)
Lemma read_lines_returns (lines : list string) :
  (exists s, read_lines lines [] [] = Ok s) <->
  Forall (fun line => aborts line = false) lines.
Proof.
  induction lines as [| line rest IH]; simpl.
  - split; [constructor | intros _; now eexists].
  - unfold aborts at 1. destruct (loop_body line) as [| t v | e] eqn:Hb.
    + rewrite IH. split.
      * intros H. constructor; [unfold aborts; now rewrite Hb | assumption].
      * intros H. now inversion H.
    + rewrite read_lines_acc. split.
      * intros [s Hs]. constructor; [unfold aborts; now rewrite Hb |].
        apply IH. destruct (read_lines rest [] []) as [s' | e];
          [now exists s' | discriminate].
      * intros H. inversion H as [| ? ? _ Hrest]; subst.
        apply IH in Hrest. destruct Hrest as [[ts' mbps'] ->]. now eexists.
    + split.
      * intros [s Hs]. discriminate.
      * intros H. inversion H as [| ? ? Hl _]; subst.
        unfold aborts in Hl. rewrite Hb in Hl. discriminate.
Qed.

(** ** The range of [datetime] *)

Lemma year_of_ordinal_range (ordinal : Z) :
  1 <= year_of_ordinal ordinal <= 9999 <-> 1 <= ordinal <= 3652059.
Proof.
  unfold year_of_ordinal, ord2ymd, DI400Y, DI100Y, DI4Y. cbv zeta.
  set (n0 := ordinal - 1).
  set (n400 := n0 / 146097). set (r400 := n0 mod 146097).
  set (n100 := r400 / 36524). set (r100 := r400 mod 36524).
  set (n4 := r100 / 1461). set (r4 := r100 mod 1461).
  set (n1 := r4 / 365). set (r1 := r4 mod 365).
  destruct ((n1 =? 4) || (n100 =? 4)) eqn:C.
  - cbn [fst]. apply orb_true_iff in C. rewrite !Z.eqb_eq in C.
    subst n1 r1 n4 r4 n100 r100 n400 r400 n0.
    Z.div_mod_to_equations. lia.
  - apply orb_false_iff in C. rewrite !Z.eqb_neq in C.
    match goal with |- context [if ?c then _ else _] => destruct c end;
      cbn [fst];
      subst n1 r1 n4 r4 n100 r100 n400 r400 n0;
      Z.div_mod_to_equations; lia.
Qed.

(** [utcfromtimestamp] returns exactly on the time stamps of the years 1
    to 9999. *)
Lemma utcfromtimestamp_range (t : Z) :
  (exists d, utcfromtimestamp t = Ok d) <->
  MIN_TIMESTAMP <= t <= MAX_TIMESTAMP.
Proof.
  unfold utcfromtimestamp, MIN_TIMESTAMP, MAX_TIMESTAMP, EPOCH_ORDINAL.
  pose proof (year_of_ordinal_range (t / 86400 + 719163)) as Hy.
  unfold year_of_ordinal in Hy.
  destruct (ord2ymd (t / 86400 + 719163)) as [[y m] d]. cbn [fst] in Hy.
  assert (Hd : 1 <= t / 86400 + 719163 <= 3652059 <->
               -62135596800 <= t <= 253402300799).
  { Z.div_mod_to_equations. lia. }
  rewrite Hd in Hy. clear Hd.
  destruct ((t <? - 2 ^ 63) || (2 ^ 63 <=? t)) eqn:C1.
  - apply orb_true_iff in C1. rewrite Z.ltb_lt, Z.leb_le in C1.
    split; [intros [? H]; discriminate | lia].
  - destruct ((y - 1900 <? - 2 ^ 31) || (2 ^ 31 <=? y - 1900)) eqn:C2.
    + apply orb_true_iff in C2. rewrite Z.ltb_lt, Z.leb_le in C2.
      split; [intros [? H]; discriminate | lia].
    + destruct ((y <? 1) || (9999 <? y)) eqn:C3.
      * apply orb_true_iff in C3. rewrite !Z.ltb_lt in C3.
        split; [intros [? H]; discriminate | lia].
      * apply orb_false_iff in C3. rewrite !Z.ltb_ge in C3.
        split; [lia | intros _; now eexists].
Qed.

(** ** One sample per line, in order *)

Lemma aborts_appends_exclusive (line : string) :
  aborts line = false -> appends line = sample_line line.
Proof.
  unfold aborts, appends. destruct (loop_body line) as [| t v | e] eqn:Hb.
  - intros _. destruct (sample_line line) eqn:Hs; [| reflexivity].
    exfalso. revert Hb Hs. rewrite loop_body_eq. unfold sample_line, numeric.
    destruct (candidate line); [| discriminate]. cbn [andb].
    destruct (PyFloat.float (field line 0)) as [x | e]; [| discriminate].
    destruct x as [s | s | | s m ex]; cbn [PyFloat.int is_nan negb andb];
      try discriminate;
      destruct (PyFloat.float (field line 2)) as [speed | e2];
      try discriminate;
      destruct (utcfromtimestamp _); discriminate.
  - intros _. symmetry. now apply (loop_body_Append line t v).
  - discriminate.
Qed.

Lemma filter_ext_Forall {A : Type} (f g : A -> bool) (l : list A) :
  Forall (fun a => f a = g a) l -> filter f l = filter g l.
Proof.
  induction 1 as [| a l Ha _ IH]; simpl; [reflexivity |].
  rewrite Ha, IH. reflexivity.
Qed.

(** A returning loop: the series is made of the samples of the sample
    lines, one for each and in their order. *)
Lemma read_lines_samples (lines : list string) (ts : list datetime)
    (mbps : list spec_float) :
  read_lines lines [] [] = Ok (ts, mbps) ->
  List.length ts = List.length mbps /\
  Forall2 sample_of (filter sample_line lines) (combine ts mbps).
Proof.
  intros H. destruct (read_lines_Ok lines ts mbps H) as [Hl HF].
  split; [exact Hl |].
  assert (Hr : Forall (fun line => aborts line = false) lines).
  { apply read_lines_returns. exists (ts, mbps). exact H. }
  rewrite <- (filter_ext_Forall appends sample_line).
  - induction HF as [| line [t v] ls ss Hb _ IH]; constructor.
    + now apply loop_body_Append in Hb.
    + exact IH.
  - eapply Forall_impl; [| exact Hr]. apply aborts_appends_exclusive.
Qed.

Lemma in_range_no_abort (line : string) :
  in_range line = true -> aborts line = false.
Proof.
  unfold in_range, aborts. rewrite loop_body_eq.
  destruct (candidate line); [| reflexivity]. cbn [negb orb].
  destruct (PyFloat.float (field line 0)) as [x | e]; [| reflexivity].
  destruct (PyFloat.int x) as [n | e] eqn:Hint.
  - apply int_truncates in Hint. destruct Hint as (q & -> & ->).
    intros H. apply andb_true_iff in H. rewrite !Z.leb_le in H.
    destruct (PyFloat.float (field line 2)); [| reflexivity].
    destruct (proj2 (utcfromtimestamp_range (Qtrunc q)) H) as [d ->].
    reflexivity.
  - destruct x; try discriminate.
    simpl in Hint. injection Hint as <-. reflexivity.
Qed.

(** ** Index by index *)

Lemma nth_error_combine {A B : Type} (l : list A) :
  forall (l' : list B) i a b,
    nth_error l i = Some a -> nth_error l' i = Some b ->
    nth_error (combine l l') i = Some (a, b).
Proof.
  induction l as [| x l IH]; intros [| y l'] [| i] a b;
    simpl; try discriminate.
  - now intros [= <-] [= <-].
  - apply IH.
Qed.

Lemma Forall2_nth_error_r {A B : Type} (P : A -> B -> Prop) (l : list A)
    (l' : list B) :
  Forall2 P l l' ->
  forall i b, nth_error l' i = Some b ->
              exists a, nth_error l i = Some a /\ P a b.
Proof.
  induction 1 as [| a b l l' Hab _ IH]; intros [| i] b'; simpl;
    try discriminate.
  - intros [= <-]. now exists a.
  - apply IH.
Qed.

(** In a returning loop, the pair at an index is the sample of the line
    at that index among the sample lines. *)
Lemma read_lines_index (lines : list string) (ts : list datetime)
    (mbps : list spec_float) :
  read_lines lines [] [] = Ok (ts, mbps) ->
  forall i t v,
    nth_error ts i = Some t -> nth_error mbps i = Some v ->
    exists line,
      nth_error (filter sample_line lines) i = Some line /\
      In line lines /\
      sample_of line (t, v).
Proof.
  intros Hread i t v Ht Hv.
  destruct (read_lines_samples _ _ _ Hread) as [_ HF].
  destruct (Forall2_nth_error_r _ _ _ HF i (t, v)
              (nth_error_combine _ _ _ _ _ Ht Hv)) as (line & Hline & Hs).
  exists line. repeat split; try assumption.
  apply nth_error_In in Hline. apply filter_In in Hline. tauto.
Qed.

(** ** The sign of a speed *)

Lemma binary_round_aux_signbit (sx : bool) (mx ex : Z) (lx : location) :
  signbit (binary_round_aux PyFloat.prec PyFloat.emax sx mx ex lx) = sx
  \/ binary_round_aux PyFloat.prec PyFloat.emax sx mx ex lx = S754_nan.
Proof.
  unfold binary_round_aux.
  destruct (shr_fexp PyFloat.prec PyFloat.emax mx ex lx) as [mrs' e'].
  destruct (shr_fexp _ _ _ e' loc_Exact) as [mrs'' e''].
  destruct (shr_m mrs'') as [| m | m]; [now left | | now right].
  destruct (e'' <=? PyFloat.emax - PyFloat.prec); now left.
Qed.

Lemma decimal_value_signbit (d x : Z) :
  signbit (PyFloat.decimal_value false d x) = false.
Proof.
  unfold PyFloat.decimal_value.
  destruct d as [| p | p]; try reflexivity.
  unfold PyFloat.round_decimal, binary_round.
  destruct x as [| k | k].
  - destruct (shl_align _ _ _) as [mz ez].
    destruct (binary_round_aux_signbit false (Zpos mz) ez loc_Exact)
      as [H | ->]; [exact H | reflexivity].
  - destruct (shl_align _ _ _) as [mz ez].
    destruct (binary_round_aux_signbit false (Zpos mz) ez loc_Exact)
      as [H | ->]; [exact H | reflexivity].
  - destruct (SFdiv_core_binary _ _ _ _ _ _) as [[mz ez] lz].
    destruct (binary_round_aux_signbit false mz ez lz)
      as [H | ->]; [exact H | reflexivity].
Qed.

Lemma strtod_signbit (s : string) (x : spec_float) (rest : string) :
  fst (PyFloat.take_sign s) = false ->
  PyFloat.strtod s = Some (x, rest) -> signbit x = false.
Proof.
  unfold PyFloat.strtod. destruct (PyFloat.take_sign s) as [sg s1].
  cbn [fst]. intros ->.
  destruct (PyFloat.span_digits s1) as [ip s2].
  destruct (match s2 with
            | String "." r => PyFloat.span_digits r
            | _ => (EmptyString, s2)
            end) as [fp s3].
  destruct (Str.is_empty ip && Str.is_empty fp); [discriminate |].
  match goal with |- context [if ?c then None else _] => destruct c end;
    [discriminate |].
  destruct (PyFloat.take_exponent s3) as [e r].
  intros [= <- _]. apply decimal_value_signbit.
Qed.

Lemma parse_inf_or_nan_signbit (s : string) (x : spec_float) (rest : string) :
  fst (PyFloat.take_sign s) = false ->
  PyFloat.parse_inf_or_nan s = Some (x, rest) -> signbit x = false.
Proof.
  unfold PyFloat.parse_inf_or_nan. destruct (PyFloat.take_sign s) as [sg s1].
  cbn [fst]. intros ->.
  destruct (PyFloat.match_word "inf" s1) as [r |].
  - destruct (PyFloat.match_word "inity" r); now intros [= <- _].
  - destruct (PyFloat.match_word "nan" s1); [now intros [= <- _] | discriminate].
Qed.

Lemma take_sign_no_minus (c : ascii) (r : string) :
  Ascii.eqb c "-" = false -> fst (PyFloat.take_sign (String c r)) = false.
Proof.
  intros H. unfold PyFloat.take_sign.
  destruct c as [[] [] [] [] [] [] [] []]; try reflexivity. discriminate.
Qed.

Lemma float_space_isspace (c : ascii) :
  PyFloat.float_space c = true -> Str.isspace c = true.
Proof.
  destruct c as [[] [] [] [] [] [] [] []]; vm_compute; congruence.
Qed.

(** [float] of a text without whitespace that does not begin with a minus
    sign has no sign bit. *)
Lemma float_signbit (s : string) (x : spec_float) :
  no_space s = true -> String.prefix "-" s = false ->
  PyFloat.float s = Ok x -> signbit x = false.
Proof.
  destruct s as [| c r]; [discriminate |].
  cbn [no_space]. intros Hns Hminus.
  apply andb_true_iff in Hns. destruct Hns as [Hc _].
  apply negb_true_iff in Hc.
  assert (Hf : PyFloat.float_space c = false).
  { destruct (PyFloat.float_space c) eqn:E; [| reflexivity].
    apply float_space_isspace in E. congruence. }
  assert (Hm : Ascii.eqb c "-" = false).
  { destruct (Ascii.eqb_spec c "-") as [-> | _]; [| reflexivity].
    simpl in Hminus. destruct r; discriminate. }
  unfold PyFloat.float. simpl PyFloat.lskip. rewrite Hf.
  simpl PyFloat.rskip. rewrite Hf. cbn [andb].
  simpl PyFloat.strip_underscores.
  destruct (Ascii.eqb c "_"); [discriminate |]. cbn [andb].
  destruct (PyFloat.strip_underscores c (PyFloat.rskip r)) as [t |];
    [| discriminate].
  cbn [option_map]. unfold PyFloat.ascii_strtod.
  pose proof (take_sign_no_minus c t Hm) as Hsg.
  destruct (PyFloat.strtod (String c t)) as [[y rest] |] eqn:Hs.
  - destruct rest; [| discriminate]. intros [= <-].
    exact (strtod_signbit _ _ _ Hsg Hs).
  - destruct (PyFloat.parse_inf_or_nan (String c t)) as [[y rest] |] eqn:Hp;
      [| discriminate].
    destruct rest; [| discriminate]. intros [= <-].
    exact (parse_inf_or_nan_signbit _ _ _ Hsg Hp).
Qed.

Lemma signbit_nonneg (x : spec_float) (q : Q) :
  signbit x = false -> PyFloat.to_Q x = Some q -> (0 <= q)%Q.
Proof.
  destruct x as [s | s | | s m e]; cbn [signbit PyFloat.to_Q];
    try discriminate.
  - intros _ [= <-]. apply Qle_refl.
  - intros -> [= <-].
    assert (H : 0 <= Zpos m * 2 ^ e).
    { apply Z.mul_nonneg_nonneg; [lia | apply Z.pow_nonneg; lia]. }
    destruct e as [| k | k].
    + change 0%Q with (inject_Z 0). now rewrite <- Zle_Qle.
    + change 0%Q with (inject_Z 0). now rewrite <- Zle_Qle.
    + unfold Qle. cbn [Qnum Qden]. lia.
Qed.

Lemma no_space_app (a b : string) :
  no_space (a ++ b)%string = no_space a && no_space b.
Proof.
  induction a as [| c a IH]; simpl; [reflexivity |].
  now rewrite IH, andb_assoc.
Qed.

(** The fields [split] returns hold no whitespace. *)
Lemma split_from_no_space (s : string) :
  forall word,
    no_space word = true ->
    Forall (fun f => no_space f = true) (Str.split_from s word).
Proof.
  induction s as [| c r IH]; intros word Hw; simpl.
  - destruct (Str.is_empty word); constructor; [assumption | constructor].
  - destruct (Str.isspace c) eqn:Hc.
    + destruct (Str.is_empty word);
        [| constructor; [assumption |]]; now apply IH.
    + apply IH. rewrite no_space_app, Hw. simpl. now rewrite Hc.
Qed.

Lemma field_no_space (line : string) (i : nat) :
  no_space (field line i) = true.
Proof.
  unfold field, Str.item, fields, Str.split.
  pose proof (split_from_no_space (Str.strip line) EmptyString eq_refl) as H.
  revert i. induction H as [| f l Hf _ IH]; intros [| i]; simpl;
    try reflexivity; [exact Hf | apply IH].
Qed.

(** ** A log that opens

    The three properties of the series all concern a log file that could
    be opened and read. *)

Section OpenedLog.

Variable w : env.
Variables path text : string.
Hypothesis opened : open_text w path = Ok text.

Lemma read_log_text : read_log w path = read_lines (readlines text) [] [].
Proof. unfold read_log. now rewrite opened. Qed.

(** C1 (as amended). [read_log] returns when, in every line it looks
    into, a field 0 that [float] accepts is a NaN or a time stamp of the
    years 1 to 9999; and whenever it returns, the series holds exactly one
    sample for each line that is not blank, starts with no sentinel prefix,
    has three fields or more, and whose field 0 parses as a float other
    than NaN and field 2 as a float: the samples of these lines, in the
    order of the lines, the two sequences being of one length. *)
Theorem read_log_one_sample_per_line :
  (Forall (fun line => in_range line = true) (readlines text) ->
   exists s, read_log w path = Ok s) /\
  (forall ts mbps,
      read_log w path = Ok (ts, mbps) ->
      List.length ts = List.length mbps /\
      Forall2 sample_of (filter sample_line (readlines text))
              (combine ts mbps)).
Proof.
  rewrite read_log_text. split.
  - intros H. apply read_lines_returns.
    eapply Forall_impl; [| exact H]. apply in_range_no_abort.
  - intros ts mbps. apply read_lines_samples.
Qed.

(** C2. Whenever [read_log] returns, its two sequences have the same
    length, and the time stamp and the speed at an index are the sample of
    one and the same line of the file: the line at that index among the
    lines that yield a sample. *)
Theorem read_log_parallel (ts : list datetime) (mbps : list spec_float) :
  read_log w path = Ok (ts, mbps) ->
  List.length ts = List.length mbps /\
  forall i t v,
    nth_error ts i = Some t -> nth_error mbps i = Some v ->
    exists line,
      nth_error (filter sample_line (readlines text)) i = Some line /\
      In line (readlines text) /\
      sample_of line (t, v).
Proof.
  rewrite read_log_text. intros Hread. split.
  - now destruct (read_lines_samples _ _ _ Hread).
  - now apply read_lines_index.
Qed.

(** C5 (as amended). Whenever [read_log] returns, every speed of the
    series is what [float] makes of field 2 of a sample line of the file;
    a speed that is a real number (neither a NaN nor an infinity) is not
    negative unless that field begins with a minus sign. *)
Theorem speeds_are_parsed_field2 (ts : list datetime)
    (mbps : list spec_float) :
  read_log w path = Ok (ts, mbps) ->
  Forall (fun v =>
            exists line,
              In line (readlines text) /\
              sample_line line = true /\
              PyFloat.float (field line 2) = Ok v /\
              (String.prefix "-" (field line 2) = false ->
               signbit v = false /\
               forall q, PyFloat.to_Q v = Some q -> (0 <= q)%Q))
         mbps.
Proof.
  rewrite read_log_text. intros Hread.
  destruct (read_lines_samples _ _ _ Hread) as [Hl _].
  pose proof (read_lines_index _ _ _ Hread) as Hi.
  apply Forall_forall. intros v Hv.
  apply In_nth_error in Hv. destruct Hv as [i Hv].
  destruct (nth_error ts i) as [t |] eqn:Ht.
  - destruct (Hi i t v Ht Hv) as (line & Hline & Hin & Hs).
    exists line. split; [exact Hin |].
    apply nth_error_In, filter_In in Hline. split; [tauto |].
    destruct Hs as (x & q & _ & _ & _ & Hf). cbn [snd] in Hf.
    split; [exact Hf |]. intros Hminus.
    pose proof (float_signbit _ _ (field_no_space line 2) Hminus Hf) as Hsb.
    split; [exact Hsb |]. intros q'. now apply signbit_nonneg.
  - apply nth_error_None in Ht. rewrite Hl in Ht.
    apply nth_error_None in Ht. congruence.
Qed.

End OpenedLog.

Lemma two_samples_in_range :
  Forall (fun line => in_range line = true) (readlines two_samples).
Proof.
  apply Forall_forall.
  apply (proj1 (forallb_forall in_range (readlines two_samples))).
  vm_compute. reflexivity.
Qed.

Lemma two_samples_read :
  read_log (one_file two_samples) "bench.log" = Ok two_samples_series.
Proof. vm_compute. reflexivity. Qed.

Lemma read_log_one_sample_per_line_witness :
  (exists s, read_log (one_file two_samples) "bench.log" = Ok s)
  /\ List.length (fst two_samples_series)
     = List.length (snd two_samples_series)
  /\ Forall2 sample_of (filter sample_line (readlines two_samples))
             (combine (fst two_samples_series) (snd two_samples_series)).
Proof.
  destruct (read_log_one_sample_per_line (one_file two_samples) "bench.log"
              two_samples eq_refl) as [Hreturns Hseries].
  split.
  - exact (Hreturns two_samples_in_range).
  - exact (Hseries (fst two_samples_series) (snd two_samples_series)
                   two_samples_read).
Defined.

(** C1 (as stated) fails: a line that is well-formed in the words of the
    claim, with the number 1e12 in field 0, makes [read_log] raise, so no
    series is returned for the file. *)
Lemma read_log_well_formed_line_raises :
  filter well_formed (readlines ("1e12 x 1.0" ++ newline)%string)
  = [("1e12 x 1.0" ++ newline)%string]
  /\ read_log (one_file ("1e12 x 1.0" ++ newline)%string) "bench.log"
     = Raise ValueError.
Proof. split; vm_compute; reflexivity. Qed.

(** A well-formed line with a NaN in field 0 is skipped. *)
Lemma read_log_nan_line_skipped :
  filter well_formed (readlines ("nan x 1.0" ++ newline)%string)
  = [("nan x 1.0" ++ newline)%string]
  /\ read_log (one_file ("nan x 1.0" ++ newline)%string) "bench.log"
     = Ok ([], []).
Proof. split; vm_compute; reflexivity. Qed.

Lemma read_log_parallel_witness :
  List.length (fst two_samples_series) = List.length (snd two_samples_series)
  /\ forall i t v,
    nth_error (fst two_samples_series) i = Some t ->
    nth_error (snd two_samples_series) i = Some v ->
    exists line,
      nth_error (filter sample_line (readlines two_samples)) i = Some line /\
      In line (readlines two_samples) /\
      sample_of line (t, v).
Proof.
  exact (read_log_parallel (one_file two_samples) "bench.log" two_samples
           eq_refl (fst two_samples_series) (snd two_samples_series)
           two_samples_read).
Defined.

Lemma speeds_are_parsed_field2_witness :
  Forall (fun v =>
            exists line,
              In line (readlines two_samples) /\
              sample_line line = true /\
              PyFloat.float (field line 2) = Ok v /\
              (String.prefix "-" (field line 2) = false ->
               signbit v = false /\
               forall q, PyFloat.to_Q v = Some q -> (0 <= q)%Q))
         (snd two_samples_series).
Proof.
  exact (speeds_are_parsed_field2 (one_file two_samples) "bench.log"
           two_samples eq_refl (fst two_samples_series)
           (snd two_samples_series) two_samples_read).
Defined.

(** C5 (as stated) fails: a negative field 2 is kept as it is, and the
    series then holds the speed -5.0. *)
Lemma read_log_negative_speed :
  read_log (one_file ("1700000000 x -5.0" ++ newline)%string) "bench.log"
  = Ok ([mkdatetime 2023 11 14 22 13 20 0],
        [S754_finite true 5629499534213120 (-50)])
  /\ has_value (S754_finite true 5629499534213120 (-50)) (-5 # 1)
  /\ (-5 # 1 < 0)%Q.
Proof.
  split; [vm_compute; reflexivity |]. split.
  - eexists. split; [reflexivity | vm_compute; reflexivity].
  - reflexivity.
Qed.

(** ** Lines that cannot be parsed *)

(** A malformed line is skipped, unless it gets as far as converting an
    infinite field 0 to an integer. *)
Lemma malformed_line_skipped (line : string) :
  malformed line = true ->
  candidate line && infinite_field0 line = false ->
  loop_body line = Continue.
Proof.
  rewrite loop_body_eq. unfold malformed, candidate, infinite_field0, numeric.
  destruct (blank line); [reflexivity |].
  destruct (sentinel line); [reflexivity |].
  destruct (short line); [reflexivity |]. cbn [negb andb orb].
  destruct (PyFloat.float (field line 0)) as [x | e]; [| reflexivity].
  destruct (PyFloat.float (field line 2)) as [v | e]; [discriminate |].
  intros _ Hinf. destruct x; try reflexivity; discriminate.
Qed.

(** A file of such lines only, the empty file among them, gives the empty
    series. *)
Lemma read_log_malformed_file (w : env) (path text : string) :
  open_text w path = Ok text ->
  Forall (fun line => malformed line = true
                      /\ candidate line && infinite_field0 line = false)
         (readlines text) ->
  read_log w path = Ok ([], []).
Proof.
  intros Hopen H. rewrite (read_log_text w path text Hopen).
  induction H as [| line rest [Hm Hi] _ IH]; simpl; [reflexivity |].
  now rewrite (malformed_line_skipped line Hm Hi).
Qed.

(** C3 (the code departs from the claim). A line with a field 2 that is
    not a number, which the claim says is skipped without an error, makes
    [read_log] raise [OverflowError] when its field 0 reads [inf]:
    [int(float(parts[0]))] is evaluated first, and the [except] clause
    catches [ValueError] only. *)
Lemma read_log_malformed_line_raises :
  malformed ("inf x abc" ++ newline)%string = true
  /\ numeric (field ("inf x abc" ++ newline)%string 2) = false
  /\ read_log (one_file ("inf x abc" ++ newline)%string) "bench.log"
     = Raise OverflowError.
Proof. repeat split; vm_compute; reflexivity. Qed.

(** ** [main] *)

Lemma read_log_empty_series (w : env) (path : string)
    (mbps : list spec_float) :
  read_log w path = Ok ([], mbps) -> mbps = [].
Proof.
  unfold read_log. destruct (open_text w path) as [text | e]; [| discriminate].
  cbn [bind]. intros H. apply read_lines_Ok in H. destruct H as [Hl _].
  destruct mbps; [reflexivity | discriminate].
Qed.

(** What [main] does, case by case. *)
Lemma main_eq (w : env) (prog : string) (args : list string) (o : io) :
  main w prog args o =
  match args with
  | [log_path; out_path] =>
      match read_log w log_path with
      | Raise e => (Raise e, o)
      | Ok ([], _) => (Ok 1, with_stderr o "No data points found.")
      | Ok (t :: ts, mbps) =>
          let call := mkplot (t :: ts) mbps ("Write speed: " ++ log_path)%string
                             out_path 150 "jpg" in
          match savefig_error w out_path with
          | Some e =>
              (Raise e, mkio (stdout o) (stderr o) (plot_calls o ++ [call])
                             (saved o))
          | None =>
              (Ok 0, mkio (stdout o ++ ("Wrote " ++ out_path) ++ newline)%string
                          (stderr o) (plot_calls o ++ [call])
                          (saved o ++ [out_path]))
          end
      end
  | _ => (Ok 1, with_stderr o (usage prog))
  end.
Proof.
  destruct args as [| a [| b [| c rest]]]; try reflexivity.
  unfold main, mbind, lift.
  destruct (read_log w a) as [[[| t ts] mbps] | e]; try reflexivity.
  unfold plot. destruct (savefig_error w b); reflexivity.
Qed.

Ltac main_cases w prog args o :=
  rewrite ?(main_eq w prog args o);
  destruct args as [| ?a [| ?b [| ?c ?rest]]];
  [ | | destruct (read_log w a) as [[[| ?t ?ts] ?mbps] | ?e] eqn:?Hread;
        [ | destruct (savefig_error w b) as [?e |] eqn:?Hsave | ] | ];
  cbn [fst snd List.length].

Lemma main_returns_1 (w : env) (prog : string) (args : list string) (o : io) :
  fst (main w prog args o) = Ok 1 <->
  List.length args <> 2%nat \/
  exists log_path out_path,
    args = [log_path; out_path] /\ read_log w log_path = Ok ([], []).
Proof.
  main_cases w prog args o.
  - split; [left; discriminate | reflexivity].
  - split; [left; discriminate | reflexivity].
  - pose proof (read_log_empty_series w a mbps Hread) as ->.
    split; [right; now exists a, b | reflexivity].
  - split; [discriminate |].
    intros [H | (? & ? & [= <- <-] & H)];
      [now elim H | rewrite Hread in H; discriminate].
  - split; [discriminate |].
    intros [H | (? & ? & [= <- <-] & H)];
      [now elim H | rewrite Hread in H; discriminate].
  - split; [discriminate |].
    intros [H | (? & ? & [= <- <-] & H)];
      [now elim H | rewrite Hread in H; discriminate].
  - split; [left; discriminate | reflexivity].
Qed.

Lemma main_returns_0 (w : env) (prog : string) (args : list string) (o : io) :
  fst (main w prog args o) = Ok 0 <->
  exists log_path out_path t ts mbps,
    args = [log_path; out_path] /\
    read_log w log_path = Ok (t :: ts, mbps) /\
    savefig_error w out_path = None.
Proof.
  main_cases w prog args o;
    try solve [split; [discriminate | intros (? & ? & ? & ? & ? & [=] & _)]].
  - split; [discriminate |].
    intros (? & ? & ? & ? & ? & [= <- <-] & H & _).
    rewrite Hread in H. discriminate.
  - split; [discriminate |].
    intros (? & ? & ? & ? & ? & [= <- <-] & _ & H).
    rewrite Hsave in H. discriminate.
  - split; [| reflexivity].
    intros _. exists a, b, t, ts, mbps. now repeat split.
  - split; [discriminate |].
    intros (? & ? & ? & ? & ? & [= <- <-] & H & _).
    rewrite Hread in H. discriminate.
Qed.

Lemma main_usage (w : env) (prog : string) (args : list string) (o : io) :
  List.length args <> 2%nat ->
  main w prog args o = (Ok 1, with_stderr o (usage prog)).
Proof.
  rewrite main_eq.
  destruct args as [| a [| b [| c rest]]]; try reflexivity.
  intros H. now elim H.
Qed.

Lemma main_no_data (w : env) (prog log_path out_path : string) (o : io) :
  read_log w log_path = Ok ([], []) ->
  main w prog [log_path; out_path] o
  = (Ok 1, with_stderr o "No data points found.").
Proof. intros H. rewrite main_eq, H. reflexivity. Qed.

Lemma main_success_output (w : env) (prog log_path out_path : string)
    (o : io) :
  fst (main w prog [log_path; out_path] o) = Ok 0 ->
  stdout (snd (main w prog [log_path; out_path] o))
  = (stdout o ++ "Wrote " ++ out_path ++ newline)%string
  /\ stderr (snd (main w prog [log_path; out_path] o)) = stderr o
  /\ saved (snd (main w prog [log_path; out_path] o)) = saved o ++ [out_path].
Proof.
  rewrite main_eq.
  destruct (read_log w log_path) as [[[| t ts] mbps] | e];
    cbn [fst snd]; try discriminate.
  destruct (savefig_error w out_path); cbn [fst snd]; try discriminate.
  intros _. repeat split.
Qed.

Lemma main_codes (w : env) (prog : string) (args : list string) (o : io)
    (n : Z) :
  fst (main w prog args o) = Ok n -> n = 0 \/ n = 1.
Proof.
  main_cases w prog args o; intros [= <-]; auto.
Qed.

(** C4. [main] returns 1 exactly when the number of arguments is not two
    or the parsed series is empty; it then leaves the usage message,
    respectively the diagnostic, on stderr.  It returns 0 exactly when the
    series is not empty and the image could be saved, and stdout then
    confirms the output path.  It returns no other code. *)
Theorem main_exit_code (w : env) (prog : string) (args : list string)
    (o : io) :
  (fst (main w prog args o) = Ok 1 <->
   List.length args <> 2%nat \/
   exists log_path out_path,
     args = [log_path; out_path] /\ read_log w log_path = Ok ([], []))
  /\ (List.length args <> 2%nat ->
      main w prog args o = (Ok 1, with_stderr o (usage prog)))
  /\ (forall log_path out_path,
         args = [log_path; out_path] ->
         read_log w log_path = Ok ([], []) ->
         main w prog args o = (Ok 1, with_stderr o "No data points found."))
  /\ (fst (main w prog args o) = Ok 0 <->
      exists log_path out_path t ts mbps,
        args = [log_path; out_path] /\
        read_log w log_path = Ok (t :: ts, mbps) /\
        savefig_error w out_path = None)
  /\ (forall log_path out_path,
         args = [log_path; out_path] ->
         fst (main w prog args o) = Ok 0 ->
         stdout (snd (main w prog args o))
         = (stdout o ++ "Wrote " ++ out_path ++ newline)%string
         /\ stderr (snd (main w prog args o)) = stderr o
         /\ saved (snd (main w prog args o)) = saved o ++ [out_path])
  /\ (forall n, fst (main w prog args o) = Ok n -> n = 0 \/ n = 1).
Proof.
  split; [apply main_returns_1 |].
  split; [apply main_usage |].
  split; [intros ? ? ->; apply main_no_data |].
  split; [apply main_returns_0 |].
  split; [intros ? ? ->; apply main_success_output |].
  apply main_codes.
Qed.

(** C10. When [main] returns 1, [plot] has not been called and no image
    file has been written. *)
Theorem main_error_exit_no_plot (w : env) (prog : string)
    (args : list string) (o : io) :
  fst (main w prog args o) = Ok 1 ->
  plot_calls (snd (main w prog args o)) = plot_calls o
  /\ saved (snd (main w prog args o)) = saved o.
Proof.
  main_cases w prog args o; try discriminate; intros _; split; reflexivity.
Qed.

Lemma main_error_exit_no_plot_witness :
  plot_calls (snd (main (one_file two_samples) "plot_benchmark.py"
                        ["bench.log"] io0)) = plot_calls io0
  /\ saved (snd (main (one_file two_samples) "plot_benchmark.py"
                      ["bench.log"] io0)) = saved io0.
Proof.
  apply (main_error_exit_no_plot (one_file two_samples) "plot_benchmark.py"
           ["bench.log"] io0).
  reflexivity.
Defined.

(** ** The scenarios of the specification *)

(** C6. For the file of the two lines [1700000000 x 12.5] and
    [1700000060 x 13.0], [read_log] returns a series of two points with
    the speeds 12.5 and 13.0, and [main], given this file and a writable
    output path, returns 0. *)
Theorem scenario_two_samples (w : env) (prog log_path out_path : string)
    (o : io) :
  open_text w log_path = Ok two_samples ->
  savefig_error w out_path = None ->
  read_log w log_path = Ok two_samples_series
  /\ List.length (fst two_samples_series) = 2%nat
  /\ Forall2 has_value (snd two_samples_series) [25 # 2; 13 # 1]%Q
  /\ fst (main w prog [log_path; out_path] o) = Ok 0.
Proof.
  intros Hopen Hsave.
  assert (Hread : read_log w log_path = Ok two_samples_series).
  { rewrite (read_log_text w log_path two_samples Hopen).
    vm_compute. reflexivity. }
  split; [exact Hread |]. split; [reflexivity |]. split.
  - repeat constructor; eexists; (split; [reflexivity | vm_compute; reflexivity]).
  - rewrite main_eq, Hread. unfold two_samples_series. now rewrite Hsave.
Qed.

Lemma scenario_two_samples_witness :
  read_log (one_file two_samples) "bench.log" = Ok two_samples_series
  /\ List.length (fst two_samples_series) = 2%nat
  /\ Forall2 has_value (snd two_samples_series) [25 # 2; 13 # 1]%Q
  /\ fst (main (one_file two_samples) "plot_benchmark.py"
               ["bench.log"; "out.jpg"] io0) = Ok 0.
Proof.
  apply (scenario_two_samples (one_file two_samples) "plot_benchmark.py"
           "bench.log" "out.jpg" io0); reflexivity.
Defined.

Lemma string_app_assoc (a b c : string) :
  ((a ++ b) ++ c = a ++ b ++ c)%string.
Proof. induction a as [| x a IH]; simpl; [reflexivity | now rewrite IH]. Qed.

Lemma string_app_nil_r (a : string) : (a ++ "")%string = a.
Proof. induction a as [| x a IH]; simpl; [reflexivity | now rewrite IH]. Qed.

(** Characters that end no line are collected into the current line. *)
Lemma readlines_from_body (body rest : string) :
  forall cur,
    no_linebreak body = true ->
    readlines_from (body ++ rest)%string cur
    = readlines_from rest (cur ++ body)%string.
Proof.
  induction body as [| c r IH]; intros cur H; simpl in *.
  - now rewrite string_app_nil_r.
  - apply andb_true_iff in H. destruct H as [H Hr].
    apply andb_true_iff in H. destruct H as [Hlf Hcr].
    apply negb_true_iff in Hlf. apply negb_true_iff in Hcr.
    rewrite Hlf, Hcr, (IH _ Hr), string_app_assoc. reflexivity.
Qed.

(** A file of one line, with or without a line ending, is read as that
    line, its ending translated. *)
Lemma readlines_one_line (c : ascii) (body eol : string) :
  no_linebreak (String c body) = true ->
  In eol line_endings ->
  readlines (String c body ++ eol)%string
  = [(String c body ++ (if Str.is_empty eol then "" else newline))%string].
Proof.
  intros Hb He. unfold readlines. rewrite readlines_from_body by exact Hb.
  cbn [append].
  destruct He as [<- | [<- | [<- | [<- | []]]]];
    cbn [readlines_from Str.is_empty Ascii.eqb Bool.eqb];
    rewrite ?string_app_nil_r; reflexivity.
Qed.

Lemma rstrip_nonspace (c : ascii) (r : string) :
  Str.isspace c = false -> Str.rstrip (String c r) = String c (Str.rstrip r).
Proof. intros H. simpl. now rewrite H. Qed.

Lemma rstrip_before_nonspace (c d : ascii) (r : string) :
  Str.isspace d = false ->
  Str.rstrip (String c (String d r)) = String c (Str.rstrip (String d r)).
Proof.
  intros H. rewrite (rstrip_nonspace d r H).
  change (Str.rstrip (String c (String d r)))
    with (if Str.isspace c && Str.is_empty (Str.rstrip (String d r))
          then EmptyString else String c (Str.rstrip (String d r))).
  rewrite (rstrip_nonspace d r H). cbn [Str.is_empty].
  now rewrite andb_false_r.
Qed.

Lemma prefix_app (p r : string) : String.prefix p (p ++ r)%string = true.
Proof.
  induction p as [| c p IH]; simpl.
  - destruct r; reflexivity.
  - destruct (ascii_dec c c) as [_ | H]; [exact IH | now elim H].
Qed.

(** A line that begins with [monitor start] is skipped. *)
Lemma loop_body_monitor_start (rest : string) :
  loop_body ("monitor start" ++ rest)%string = Continue.
Proof.
  rewrite loop_body_eq.
  assert (H : exists r, Str.strip ("monitor start" ++ rest)%string
                        = ("monitor start" ++ r)%string).
  { exists (Str.rstrip rest). unfold Str.strip.
    change (Str.lstrip ("monitor start" ++ rest)%string)
      with ("monitor start" ++ rest)%string.
    cbn [append].
    rewrite !rstrip_nonspace by reflexivity.
    rewrite rstrip_before_nonspace by reflexivity.
    rewrite !rstrip_nonspace by reflexivity.
    reflexivity. }
  destruct H as [r Hr].
  unfold candidate, blank, sentinel. rewrite Hr.
  rewrite prefix_app. cbn [orb negb]. now rewrite andb_false_r.
Qed.

(** C7. For a file that holds one line beginning with [monitor start],
    ended or not by a line ending, [read_log] returns the empty series,
    and [main] writes [No data points found.] to stderr and returns 1. *)
Theorem scenario_monitor_start (w : env) (prog log_path out_path : string)
    (rest eol : string) (o : io) :
  no_linebreak rest = true ->
  In eol line_endings ->
  open_text w log_path = Ok ("monitor start" ++ rest ++ eol)%string ->
  read_log w log_path = Ok ([], [])
  /\ main w prog [log_path; out_path] o
     = (Ok 1, with_stderr o "No data points found.").
Proof.
  intros Hrest Heol Hopen.
  assert (Hread : read_log w log_path = Ok ([], [])).
  { rewrite (read_log_text w log_path _ Hopen).
    rewrite <- string_app_assoc.
    change ("monitor start" ++ rest)%string
      with (String "m" ("onitor start" ++ rest))%string.
    rewrite readlines_one_line by assumption.
    change (String "m" ("onitor start" ++ rest))%string
      with ("monitor start" ++ rest)%string.
    rewrite string_app_assoc. cbn [read_lines].
    now rewrite loop_body_monitor_start. }
  split; [exact Hread |]. now apply main_no_data.
Qed.

Lemma scenario_monitor_start_witness :
  read_log (one_file ("monitor start" ++ " 12:00:00 sda" ++ newline)%string)
           "bench.log" = Ok ([], [])
  /\ main (one_file ("monitor start" ++ " 12:00:00 sda" ++ newline)%string)
          "plot_benchmark.py" ["bench.log"; "out.jpg"] io0
     = (Ok 1, with_stderr io0 "No data points found.").
Proof.
  apply (scenario_monitor_start
           (one_file ("monitor start" ++ " 12:00:00 sda" ++ newline)%string)
           "plot_benchmark.py" "bench.log" "out.jpg" " 12:00:00 sda" newline
           io0).
  - reflexivity.
  - right. left. reflexivity.
  - reflexivity.
Defined.

(** ** Only fields 0 and 2 matter *)

Lemma loop_body_fields_0_2 (l1 l2 : string) :
  candidate l1 = true -> candidate l2 = true ->
  field l1 0 = field l2 0 -> field l1 2 = field l2 2 ->
  loop_body l1 = loop_body l2.
Proof.
  intros H1 H2 H0 H. rewrite !loop_body_eq, H1, H2, H0, H. reflexivity.
Qed.

(** The loop sees a line only through what its body does with it. *)
Lemma read_lines_ext (lines lines' : list string) :
  map loop_body lines = map loop_body lines' ->
  forall ts mbps, read_lines lines ts mbps = read_lines lines' ts mbps.
Proof.
  revert lines'.
  induction lines as [| l lines IH]; intros [| l' lines']; simpl;
    try discriminate; [reflexivity |].
  intros [= Hl Hrest] ts mbps. rewrite Hl.
  destruct (loop_body l'); [apply IH | apply IH | reflexivity]; assumption.
Qed.

(** C9. Take a line the loop looks into (not blank, no sentinel prefix,
    three fields or more) and replace it by another such line with the
    same field 0 and the same field 2, whatever its field 1 and its fields
    from index 3 on are: [read_log] gives the same result, and so the same
    two sequences. *)
Theorem read_log_depends_on_fields_0_2 (w1 w2 : env)
    (path1 path2 text1 text2 : string) (before after : list string)
    (l1 l2 : string) :
  open_text w1 path1 = Ok text1 ->
  open_text w2 path2 = Ok text2 ->
  readlines text1 = before ++ l1 :: after ->
  readlines text2 = before ++ l2 :: after ->
  candidate l1 = true -> candidate l2 = true ->
  field l1 0 = field l2 0 -> field l1 2 = field l2 2 ->
  loop_body l1 = loop_body l2 /\ read_log w1 path1 = read_log w2 path2.
Proof.
  intros Ho1 Ho2 Hr1 Hr2 Hc1 Hc2 H0 H2.
  pose proof (loop_body_fields_0_2 l1 l2 Hc1 Hc2 H0 H2) as Hb.
  split; [exact Hb |].
  rewrite (read_log_text w1 path1 text1 Ho1), (read_log_text w2 path2 text2 Ho2).
  rewrite Hr1, Hr2. apply read_lines_ext.
  rewrite !map_app. simpl. now rewrite Hb.
Qed.

Lemma read_log_depends_on_fields_0_2_witness :
  loop_body sample_plain = loop_body sample_other_fields
  /\ read_log (one_file (two_samples ++ sample_plain)%string) "a.log"
     = read_log (one_file (two_samples ++ sample_other_fields)%string) "b.log".
Proof.
  apply (read_log_depends_on_fields_0_2
           (one_file (two_samples ++ sample_plain)%string)
           (one_file (two_samples ++ sample_other_fields)%string)
           "a.log" "b.log"
           (two_samples ++ sample_plain)%string
           (two_samples ++ sample_other_fields)%string
           (readlines two_samples) [] sample_plain sample_other_fields);
    reflexivity.
Defined.

(** ** The time stamp is the truncated float *)

(** C8 (as amended). The time stamp of every appended sample is the UTC
    date of field 0 parsed as a float and truncated toward zero; so two
    lines whose field 0 floats have the same integer part get the same
    time stamp, as the lines with [1700000000] and [1700000000.9] do. *)
Theorem timestamp_is_truncated_float :
  (forall line t v,
      loop_body line = Append t v ->
      exists x q,
        PyFloat.float (field line 0) = Ok x /\
        PyFloat.to_Q x = Some q /\
        PyFloat.int x = Ok (Qtrunc q) /\
        utcfromtimestamp (Qtrunc q) = Ok t)
  /\ (forall l1 l2 t1 v1 t2 v2 x1 x2 q1 q2,
         loop_body l1 = Append t1 v1 -> loop_body l2 = Append t2 v2 ->
         PyFloat.float (field l1 0) = Ok x1 -> PyFloat.to_Q x1 = Some q1 ->
         PyFloat.float (field l2 0) = Ok x2 -> PyFloat.to_Q x2 = Some q2 ->
         Qtrunc q1 = Qtrunc q2 ->
         t1 = t2)
  /\ (exists t v,
         loop_body "1700000000 x 12.5" = Append t v /\
         loop_body "1700000000.9 x 12.5" = Append t v).
Proof.
  assert (A : forall line t v,
             loop_body line = Append t v ->
             exists x q,
               PyFloat.float (field line 0) = Ok x /\
               PyFloat.to_Q x = Some q /\
               PyFloat.int x = Ok (Qtrunc q) /\
               utcfromtimestamp (Qtrunc q) = Ok t).
  { intros line t v H. apply loop_body_Append in H.
    destruct H as (_ & x & q & Hx & Hq & Ht & _). cbn [fst] in Ht.
    exists x, q. repeat split; try assumption.
    apply int_truncates. now exists q. }
  split; [exact A |]. split.
  - intros l1 l2 t1 v1 t2 v2 x1 x2 q1 q2 H1 H2 Hx1 Hq1 Hx2 Hq2 Heq.
    destruct (A _ _ _ H1) as (x1' & q1' & Hx1' & Hq1' & _ & Ht1).
    destruct (A _ _ _ H2) as (x2' & q2' & Hx2' & Hq2' & _ & Ht2).
    rewrite Hx1 in Hx1'. injection Hx1' as <-.
    rewrite Hx2 in Hx2'. injection Hx2' as <-.
    rewrite Hq1 in Hq1'. injection Hq1' as <-.
    rewrite Hq2 in Hq2'. injection Hq2' as <-.
    rewrite Heq, Ht2 in Ht1. now injection Ht1.
  - eexists. eexists. split; vm_compute; reflexivity.
Qed.

(** C8 (as stated) fails: [1700000000] and [1700000000.99999999] differ
    in the fractional part only, but the nearest float to the second is
    1700000001.0, and the two lines get time stamps one second apart. *)
Lemma timestamp_fraction_rounds_up :
  loop_body "1700000000 x 12.5"
  = Append (mkdatetime 2023 11 14 22 13 20 0)
           (S754_finite false 7036874417766400 (-49))
  /\ loop_body "1700000000.99999999 x 12.5"
     = Append (mkdatetime 2023 11 14 22 13 21 0)
              (S754_finite false 7036874417766400 (-49))
  /\ PyFloat.float "1700000000.99999999"
     = Ok (S754_finite false 7130316804194304 (-22))
  /\ PyFloat.int (S754_finite false 7130316804194304 (-22)) = Ok 1700000001.
Proof. repeat split; vm_compute; reflexivity. Qed.

(** * Further properties of [read_log], [main] and the script *)

(** ** The result is a function of the fields 0 and 2 *)

Lemma loop_body_key (l1 l2 : string) :
  candidate l1 = true -> candidate l2 = true -> key l1 = key l2 ->
  loop_body l1 = loop_body l2.
Proof.
  unfold key. intros H1 H2 [= H0 H]. rewrite !loop_body_eq, H1, H2, H0, H.
  reflexivity.
Qed.

Lemma loop_body_not_candidate (line : string) :
  candidate line = false -> loop_body line = Continue.
Proof. intros H. now rewrite loop_body_eq, H. Qed.

(** Lines the loop does not look into can be dropped. *)
Lemma read_lines_filter_candidate (lines : list string) :
  forall ts mbps,
    read_lines (filter candidate lines) ts mbps = read_lines lines ts mbps.
Proof.
  induction lines as [| l lines IH]; intros ts mbps; simpl; [reflexivity |].
  destruct (candidate l) eqn:Hc; simpl.
  - destruct (loop_body l); [apply IH | apply IH | reflexivity].
  - rewrite (loop_body_not_candidate l Hc). apply IH.
Qed.

Lemma map_key_loop_body (ls1 : list string) :
  forall ls2,
    Forall (fun l => candidate l = true) ls1 ->
    Forall (fun l => candidate l = true) ls2 ->
    map key ls1 = map key ls2 ->
    map loop_body ls1 = map loop_body ls2.
Proof.
  induction ls1 as [| l1 ls1 IH]; intros [| l2 ls2] H1 H2; cbn [map];
    try discriminate; [reflexivity |].
  intros Hk.
  assert (Hhead : key l1 = key l2) by congruence.
  assert (Hrest : map key ls1 = map key ls2) by congruence.
  inversion H1 as [| ? ? Hc1 Hr1]; inversion H2 as [| ? ? Hc2 Hr2]; subst.
  rewrite (loop_body_key l1 l2 Hc1 Hc2 Hhead), (IH ls2 Hr1 Hr2 Hrest).
  reflexivity.
Qed.

Lemma Forall_filter_true {A : Type} (f : A -> bool) (l : list A) :
  Forall (fun a => f a = true) (filter f l).
Proof. apply Forall_forall. intros a Ha. now apply filter_In in Ha. Qed.

(** X1. The result of [read_log], series or exception, depends on the
    file only through the fields 0 and 2 of the lines that are not blank,
    start with no sentinel prefix and have three fields or more, taken in
    order: two files that agree on these give the same result, whatever
    blank, sentinel or short lines, other fields, indentation or
    separators they hold. *)
Theorem read_log_function_of_keys (w1 w2 : env)
    (path1 path2 text1 text2 : string) :
  open_text w1 path1 = Ok text1 ->
  open_text w2 path2 = Ok text2 ->
  map key (filter candidate (readlines text1))
  = map key (filter candidate (readlines text2)) ->
  read_log w1 path1 = read_log w2 path2.
Proof.
  intros Ho1 Ho2 Hk.
  rewrite (read_log_text w1 path1 text1 Ho1), (read_log_text w2 path2 text2 Ho2).
  rewrite <- (read_lines_filter_candidate (readlines text1)).
  rewrite <- (read_lines_filter_candidate (readlines text2)).
  apply read_lines_ext.
  apply map_key_loop_body; [apply Forall_filter_true .. | exact Hk].
Qed.

Lemma noisy_log_same_keys :
  map key (filter candidate (readlines two_samples))
  = map key (filter candidate (readlines noisy_two_samples)).
Proof. vm_compute. reflexivity. Qed.

Lemma read_log_function_of_keys_witness :
  read_log (one_file two_samples) "a.log"
  = read_log (one_file noisy_two_samples) "b.log".
Proof.
  exact (read_log_function_of_keys
           (one_file two_samples) (one_file noisy_two_samples)
           "a.log" "b.log" two_samples noisy_two_samples
           eq_refl eq_refl noisy_log_same_keys).
Defined.

(** ** One log after another *)

(** The loop over two runs of lines is the loop over the first, carried
    on over the second. *)
Lemma read_lines_app (l1 l2 : list string) :
  forall ts mbps,
    read_lines (l1 ++ l2) ts mbps =
    match read_lines l1 ts mbps with
    | Ok (ts', mbps') => read_lines l2 ts' mbps'
    | Raise e => Raise e
    end.
Proof.
  induction l1 as [| l l1 IH]; intros ts mbps; simpl; [reflexivity |].
  destruct (loop_body l); [apply IH | apply IH | reflexivity].
Qed.

Lemma readlines_from_cr (r cur : string) :
  readlines_from (String "013" r) cur =
  (cur ++ newline)%string
    :: readlines_from match r with
                      | String c r' => if Ascii.eqb c "010" then r' else r
                      | EmptyString => r
                      end EmptyString.
Proof.
  destruct r as [| c r']; [reflexivity |].
  destruct c as [[] [] [] [] [] [] [] []]; reflexivity.
Qed.

Lemma readlines_from_other (c : ascii) (r cur : string) :
  Ascii.eqb c "010" = false -> Ascii.eqb c "013" = false ->
  readlines_from (String c r) cur
  = readlines_from r (cur ++ String c EmptyString)%string.
Proof. intros H1 H2. simpl. now rewrite H1, H2. Qed.

(** A text that ends with LF is read line by line on its own, whatever
    text follows it. *)
Lemma readlines_from_app (a b : string) :
  forall cur,
    readlines_from (a ++ newline ++ b)%string cur
    = readlines_from (a ++ newline)%string cur ++ readlines_from b EmptyString.
Proof.
  induction a as [| c r IH]; intros cur.
  - reflexivity.
  - destruct (Ascii.eqb c "010") eqn:Hlf.
    + apply Ascii.eqb_eq in Hlf. subst c.
      change (readlines_from (String "010" r ++ newline ++ b) cur)
        with ((cur ++ newline)%string
                :: readlines_from (r ++ newline ++ b)%string EmptyString).
      change (readlines_from (String "010" r ++ newline) cur)
        with ((cur ++ newline)%string
                :: readlines_from (r ++ newline)%string EmptyString).
      now rewrite IH.
    + destruct (Ascii.eqb c "013") eqn:Hcr.
      * apply Ascii.eqb_eq in Hcr. subst c.
        cbn [append]. rewrite !readlines_from_cr.
        destruct r as [| d r2].
        -- reflexivity.
        -- cbn [append]. destruct (Ascii.eqb d "010") eqn:Hd.
           ++ apply Ascii.eqb_eq in Hd. subst d.
              specialize (IH EmptyString).
              change (readlines_from (String "010" r2 ++ newline ++ b) "")
                with (("" ++ newline)%string
                        :: readlines_from (r2 ++ newline ++ b)%string "")
                in IH.
              change (readlines_from (String "010" r2 ++ newline) "")
                with (("" ++ newline)%string
                        :: readlines_from (r2 ++ newline)%string "")
                in IH.
              injection IH as IH. simpl. now rewrite IH.
           ++ simpl. f_equal. apply (IH EmptyString).
      * cbn [append]. rewrite !readlines_from_other by assumption. apply IH.
Qed.

Lemma readlines_app (a b : string) :
  readlines (a ++ newline ++ b)%string
  = readlines (a ++ newline)%string ++ readlines b.
Proof. apply readlines_from_app. Qed.

(** X2. Reading a log that is one log, ended by a line ending, followed
    by another gives what reading the two gives, put one after the other:
    the exception of the first if it raises, else that of the second if it
    raises, else the two series joined. *)
Theorem read_log_concatenation (w : env) (path1 path2 path : string)
    (text1 text2 : string) :
  open_text w path1 = Ok (text1 ++ newline)%string ->
  open_text w path2 = Ok text2 ->
  open_text w path = Ok (text1 ++ newline ++ text2)%string ->
  read_log w path =
  match read_log w path1 with
  | Raise e => Raise e
  | Ok (ts1, mbps1) =>
      match read_log w path2 with
      | Raise e => Raise e
      | Ok (ts2, mbps2) => Ok (ts1 ++ ts2, mbps1 ++ mbps2)
      end
  end.
Proof.
  intros Ho1 Ho2 Ho.
  rewrite (read_log_text w path _ Ho), (read_log_text w path1 _ Ho1),
    (read_log_text w path2 _ Ho2).
  rewrite readlines_app, read_lines_app.
  destruct (read_lines (readlines (text1 ++ newline)) [] [])
    as [[ts1 mbps1] | e]; [| reflexivity].
  apply read_lines_acc.
Qed.

Lemma read_log_concatenation_witness :
  read_log (env_of [("a", sample_plain); ("b", two_samples);
                    ("ab", ("1700000000 x 12.5" ++ newline ++ two_samples)%string)])
           "ab"
  = match read_log (env_of [("a", sample_plain); ("b", two_samples);
                            ("ab", ("1700000000 x 12.5" ++ newline
                                    ++ two_samples)%string)]) "a" with
    | Raise e => Raise e
    | Ok (ts1, mbps1) =>
        match read_log (env_of [("a", sample_plain); ("b", two_samples);
                                ("ab", ("1700000000 x 12.5" ++ newline
                                        ++ two_samples)%string)]) "b" with
        | Raise e => Raise e
        | Ok (ts2, mbps2) => Ok (ts1 ++ ts2, mbps1 ++ mbps2)
        end
    end.
Proof.
  exact (read_log_concatenation
           (env_of [("a", sample_plain); ("b", two_samples);
                    ("ab", ("1700000000 x 12.5" ++ newline
                            ++ two_samples)%string)])
           "a" "b" "ab" "1700000000 x 12.5" two_samples
           eq_refl eq_refl eq_refl).
Defined.

(** ** When [read_log] raises *)

(** The loop body raises exactly on the fatal lines. *)
Lemma aborts_fatal (line : string) : aborts line = fatal line.
Proof.
  unfold aborts, fatal. rewrite loop_body_eq.
  destruct (candidate line); [| reflexivity]. cbn [andb].
  destruct (PyFloat.float (field line 0)) as [x | e]; [| reflexivity].
  destruct (PyFloat.int x) as [n | e] eqn:Hint.
  - apply int_truncates in Hint. destruct Hint as (q & -> & ->).
    unfold numeric.
    destruct (PyFloat.float (field line 2)) as [v | e]; [| reflexivity].
    cbn [andb].
    destruct ((MIN_TIMESTAMP <=? Qtrunc q) && (Qtrunc q <=? MAX_TIMESTAMP))
      eqn:Hr.
    + apply andb_true_iff in Hr. rewrite !Z.leb_le in Hr.
      destruct (proj2 (utcfromtimestamp_range (Qtrunc q)) Hr) as [d ->].
      reflexivity.
    + destruct (utcfromtimestamp (Qtrunc q)) as [d | e] eqn:Hu;
        [| reflexivity].
      assert (Hin : MIN_TIMESTAMP <= Qtrunc q <= MAX_TIMESTAMP).
      { apply utcfromtimestamp_range. now exists d. }
      apply andb_false_iff in Hr. rewrite !Z.leb_nle in Hr. lia.
  - destruct x; try discriminate; simpl in Hint; injection Hint as <-;
      reflexivity.
Qed.

Lemma read_lines_raises (lines : list string) :
  forall ts mbps,
    (exists e, read_lines lines ts mbps = Raise e) <->
    Exists (fun line => fatal line = true) lines.
Proof.
  induction lines as [| l lines IH]; intros ts mbps; simpl.
  - split; [intros [e H]; discriminate | intros H; inversion H].
  - pose proof (aborts_fatal l) as Hf. unfold aborts in Hf.
    destruct (loop_body l) as [| t v | e].
    + rewrite IH. split; [now right |].
      intros H. inversion H as [? ? Hl | ? ? Hr]; subst;
        [congruence | assumption].
    + rewrite IH. split; [now right |].
      intros H. inversion H as [? ? Hl | ? ? Hr]; subst;
        [congruence | assumption].
    + split; [intros _; now left | intros _; now exists e].
Qed.

(** X3. [read_log], once the file is open, raises exactly when some line
    it looks into (not blank, no sentinel prefix, three fields or more) has
    a field 0 that reads as an infinity, or a field 0 that reads as a
    finite number truncating to a time stamp outside the years 1 to 9999
    together with a field 2 that [float] accepts. *)
Theorem read_log_raises_iff (w : env) (path text : string) :
  open_text w path = Ok text ->
  (exists e, read_log w path = Raise e) <->
  Exists (fun line => fatal line = true) (readlines text).
Proof.
  intros Hopen. rewrite (read_log_text w path text Hopen).
  apply read_lines_raises.
Qed.

Lemma read_log_raises_iff_witness :
  (exists e, read_log (one_file ("1700000000 x 12.5" ++ newline
                                 ++ "1e400 x 1")%string) "bench.log"
             = Raise e) <->
  Exists (fun line => fatal line = true)
         (readlines ("1700000000 x 12.5" ++ newline ++ "1e400 x 1")%string).
Proof.
  exact (read_log_raises_iff
           (one_file ("1700000000 x 12.5" ++ newline ++ "1e400 x 1")%string)
           "bench.log"
           ("1700000000 x 12.5" ++ newline ++ "1e400 x 1")%string eq_refl).
Defined.

(** X4. What follows the first fatal line is never looked at: two files
    with the same lines up to and including a fatal line give the same
    exception, and no series. *)
Theorem read_log_stops_at_fatal_line (w1 w2 : env)
    (path1 path2 text1 text2 : string) (before after1 after2 : list string)
    (line : string) :
  open_text w1 path1 = Ok text1 ->
  open_text w2 path2 = Ok text2 ->
  readlines text1 = before ++ line :: after1 ->
  readlines text2 = before ++ line :: after2 ->
  fatal line = true ->
  read_log w1 path1 = read_log w2 path2
  /\ exists e, read_log w1 path1 = Raise e.
Proof.
  intros Ho1 Ho2 Hr1 Hr2 Hf.
  rewrite (read_log_text w1 path1 text1 Ho1), (read_log_text w2 path2 text2 Ho2).
  rewrite Hr1, Hr2, !read_lines_app.
  rewrite <- aborts_fatal in Hf. unfold aborts in Hf.
  destruct (read_lines before [] []) as [[ts mbps] | e].
  - simpl. destruct (loop_body line) as [| t v | e]; try discriminate.
    split; [reflexivity | now exists e].
  - split; [reflexivity | now exists e].
Qed.

Lemma fatal_inf_line : fatal ("inf x 1" ++ newline)%string = true.
Proof. vm_compute. reflexivity. Qed.

Lemma read_log_stops_at_fatal_line_witness :
  read_log (one_file ("1700000000 x 12.5" ++ newline ++ "inf x 1"
                      ++ newline)%string) "a.log"
  = read_log (one_file ("1700000000 x 12.5" ++ newline ++ "inf x 1" ++ newline
                        ++ "1700000060 x 13.0")%string) "b.log"
  /\ exists e,
      read_log (one_file ("1700000000 x 12.5" ++ newline ++ "inf x 1"
                          ++ newline)%string) "a.log" = Raise e.
Proof.
  exact (read_log_stops_at_fatal_line
           (one_file ("1700000000 x 12.5" ++ newline ++ "inf x 1"
                      ++ newline)%string)
           (one_file ("1700000000 x 12.5" ++ newline ++ "inf x 1" ++ newline
                      ++ "1700000060 x 13.0")%string)
           "a.log" "b.log" _ _
           [("1700000000 x 12.5" ++ newline)%string] []
           [("1700000060 x 13.0")%string] ("inf x 1" ++ newline)%string
           eq_refl eq_refl eq_refl eq_refl fatal_inf_line).
Defined.

(** ** Line endings and blanks *)

Lemma readlines_from_to_crlf (s : string) :
  forall cur,
    no_cr s = true ->
    readlines_from (to_crlf s) cur = readlines_from s cur.
Proof.
  induction s as [| c r IH]; intros cur H; [reflexivity |].
  cbn [no_cr] in H. apply andb_true_iff in H. destruct H as [Hc Hr].
  apply negb_true_iff in Hc. cbn [to_crlf].
  destruct (Ascii.eqb c "010") eqn:Hlf.
  - apply Ascii.eqb_eq in Hlf. subst c. rewrite readlines_from_cr.
    cbn [Ascii.eqb Bool.eqb].
    change (readlines_from (String "010" r) cur)
      with ((cur ++ newline)%string :: readlines_from r EmptyString).
    now rewrite IH.
  - rewrite !readlines_from_other by assumption. now apply IH.
Qed.

(** X5. A log written with CR LF line endings is read as the same log
    written with LF endings: same series, or same exception. *)
Theorem read_log_crlf (w1 w2 : env) (path1 path2 text : string) :
  no_cr text = true ->
  open_text w1 path1 = Ok text ->
  open_text w2 path2 = Ok (to_crlf text) ->
  readlines (to_crlf text) = readlines text
  /\ read_log w1 path1 = read_log w2 path2.
Proof.
  intros Hcr Ho1 Ho2.
  assert (H : readlines (to_crlf text) = readlines text)
    by now apply readlines_from_to_crlf.
  split; [exact H |].
  now rewrite (read_log_text w1 path1 _ Ho1), (read_log_text w2 path2 _ Ho2), H.
Qed.

Lemma read_log_crlf_witness :
  readlines (to_crlf two_samples) = readlines two_samples
  /\ read_log (one_file two_samples) "unix.log"
     = read_log (one_file (to_crlf two_samples)) "dos.log".
Proof.
  exact (read_log_crlf (one_file two_samples) (one_file (to_crlf two_samples))
           "unix.log" "dos.log" two_samples eq_refl eq_refl eq_refl).
Defined.

Lemma lstrip_whitespace (pad s : string) :
  whitespace pad = true -> Str.lstrip (pad ++ s)%string = Str.lstrip s.
Proof.
  induction pad as [| c pad IH]; intros H; [reflexivity |].
  cbn [whitespace] in H. apply andb_true_iff in H. destruct H as [Hc Hp].
  cbn [append Str.lstrip]. rewrite Hc. now apply IH.
Qed.

Lemma rstrip_all_whitespace (pad : string) :
  whitespace pad = true -> Str.rstrip pad = EmptyString.
Proof.
  induction pad as [| c pad IH]; intros H; [reflexivity |].
  cbn [whitespace] in H. apply andb_true_iff in H. destruct H as [Hc Hp].
  cbn [Str.rstrip]. now rewrite (IH Hp), Hc.
Qed.

Lemma rstrip_whitespace (s pad : string) :
  whitespace pad = true -> Str.rstrip (s ++ pad)%string = Str.rstrip s.
Proof.
  intros H. induction s as [| c s IH].
  - now apply rstrip_all_whitespace.
  - cbn [append Str.rstrip]. now rewrite IH.
Qed.

(** Whitespace around a text is stripped with it. *)
Lemma strip_whitespace (pad s pad' : string) :
  whitespace pad = true -> whitespace pad' = true ->
  Str.strip (pad ++ s ++ pad')%string = Str.strip s.
Proof.
  intros Hp Hp'. unfold Str.strip. rewrite (lstrip_whitespace pad _ Hp).
  induction s as [| c s IH].
  - cbn [append]. rewrite <- (string_app_nil_r pad') at 1.
    rewrite (lstrip_whitespace pad' EmptyString Hp'). reflexivity.
  - cbn [append Str.lstrip]. destruct (Str.isspace c).
    + exact IH.
    + now apply (rstrip_whitespace (String c s)).
Qed.

(** X6. Whitespace before and after a line does not change what the loop
    does with it: an indented line, or one with trailing blanks, gives the
    same sample, is skipped or raises as the bare line does. *)
Theorem loop_body_ignores_padding (pad line pad' : string) :
  whitespace pad = true -> whitespace pad' = true ->
  Str.strip (pad ++ line ++ pad')%string = Str.strip line
  /\ loop_body (pad ++ line ++ pad')%string = loop_body line.
Proof.
  intros Hp Hp'.
  pose proof (strip_whitespace pad line pad' Hp Hp') as H.
  split; [exact H |]. unfold loop_body. now rewrite H.
Qed.

Lemma loop_body_ignores_padding_witness :
  Str.strip ("  " ++ "1700000000 x 12.5" ++ String "009" newline)%string
  = Str.strip "1700000000 x 12.5"
  /\ loop_body ("  " ++ "1700000000 x 12.5" ++ String "009" newline)%string
     = loop_body "1700000000 x 12.5".
Proof.
  exact (loop_body_ignores_padding "  " "1700000000 x 12.5"
           (String "009" newline) eq_refl eq_refl).
Defined.

(** ** What [main] hands to [plot], and how the script ends *)

Lemma read_log_lengths (w : env) (path : string) (ts : list datetime)
    (mbps : list spec_float) :
  read_log w path = Ok (ts, mbps) -> List.length ts = List.length mbps.
Proof.
  unfold read_log. destruct (open_text w path) as [text | e]; [| discriminate].
  cbn [bind]. intros H. now apply read_lines_Ok in H.
Qed.

(** X7. [main] calls [plot] exactly when there are two arguments and
    [read_log] returned a series that is not empty; it then calls it once,
    with that series, whose two sequences have one length, with the title
    [Write speed: ] followed by the log path, and with the output path.
    In every other case [plot] is not called. *)
Theorem main_plots_what_was_read (w : env) (prog : string)
    (args : list string) (o : io) :
  (forall log_path out_path ts mbps,
      args = [log_path; out_path] ->
      read_log w log_path = Ok (ts, mbps) ->
      ts <> [] ->
      plot_calls (snd (main w prog args o))
      = plot_calls o
        ++ [mkplot ts mbps ("Write speed: " ++ log_path)%string out_path
                   150 "jpg"]
      /\ List.length ts = List.length mbps)
  /\ ((forall log_path out_path t ts mbps,
          args = [log_path; out_path] ->
          read_log w log_path <> Ok (t :: ts, mbps)) ->
      plot_calls (snd (main w prog args o)) = plot_calls o).
Proof.
  split.
  - intros log_path out_path ts mbps -> Hread Hne.
    split; [| exact (read_log_lengths _ _ _ _ Hread)].
    rewrite main_eq, Hread. destruct ts as [| t ts]; [now elim Hne |].
    destruct (savefig_error w out_path); reflexivity.
  - intros H. rewrite main_eq.
    destruct args as [| a [| b [| c rest]]]; try reflexivity.
    destruct (read_log w a) as [[[| t ts] mbps] | e] eqn:Hread;
      try reflexivity.
    exfalso. exact (H a b t ts mbps eq_refl Hread).
Qed.

Ltac script_cases traceback w prog args o :=
  unfold script; rewrite (main_eq w prog args o);
  destruct args as [| ?a [| ?b [| ?c ?rest]]];
  [ | | destruct (read_log w a) as [[[| ?t ?ts] ?mbps] | ?e] eqn:?Hread;
        [ | destruct (savefig_error w b) as [?e |] eqn:?Hsave | ] | ];
  cbn [fst snd stdout saved].

(** X8. The exit status of the script is 0 or 1.  It is 0 exactly when
    there are two arguments, [read_log] returned a series that is not
    empty and the image could be saved; the output path is then the one
    file written and [Wrote] and the path are printed.  With the status 1,
    be it for the arguments, for an empty series or for an exception, no
    image was written and stdout is as it was. *)
Theorem script_exit_status (traceback : exn -> string) (w : env)
    (prog : string) (args : list string) (o : io) :
  (fst (script traceback w prog args o) = 0
   \/ fst (script traceback w prog args o) = 1)
  /\ (fst (script traceback w prog args o) = 0 <->
      exists log_path out_path t ts mbps,
        args = [log_path; out_path] /\
        read_log w log_path = Ok (t :: ts, mbps) /\
        savefig_error w out_path = None)
  /\ (forall log_path out_path,
         args = [log_path; out_path] ->
         fst (script traceback w prog args o) = 0 ->
         saved (snd (script traceback w prog args o)) = saved o ++ [out_path]
         /\ stdout (snd (script traceback w prog args o))
            = (stdout o ++ "Wrote " ++ out_path ++ newline)%string)
  /\ (fst (script traceback w prog args o) = 1 ->
      saved (snd (script traceback w prog args o)) = saved o
      /\ stdout (snd (script traceback w prog args o)) = stdout o).
Proof.
  split; [| split; [| split]].
  - script_cases traceback w prog args o; auto.
  - script_cases traceback w prog args o;
      try solve [split; [discriminate
                        | intros (? & ? & ? & ? & ? & [=] & _)]].
    + split; [discriminate |].
      intros (? & ? & ? & ? & ? & [= <- <-] & H & _).
      rewrite Hread in H. discriminate.
    + split; [discriminate |].
      intros (? & ? & ? & ? & ? & [= <- <-] & _ & H).
      rewrite Hsave in H. discriminate.
    + split; [| reflexivity].
      intros _. exists a, b, t, ts, mbps. now repeat split.
    + split; [discriminate |].
      intros (? & ? & ? & ? & ? & [= <- <-] & H & _).
      rewrite Hread in H. discriminate.
  - intros log_path out_path ->. unfold script. rewrite main_eq.
    destruct (read_log w log_path) as [[[| t ts] mbps] | e];
      cbn [fst snd]; try discriminate.
    destruct (savefig_error w out_path); cbn [fst snd saved stdout];
      try discriminate.
    intros _. split; reflexivity.
  - script_cases traceback w prog args o; try discriminate;
      intros _; split; reflexivity.
Qed.

Lemma read_lines_no_candidate (lines : list string) :
  Forall (fun line => candidate line = false) lines ->
  read_lines lines [] [] = Ok ([], []).
Proof.
  induction 1 as [| l lines Hl _ IH]; simpl; [reflexivity |].
  now rewrite (loop_body_not_candidate l Hl).
Qed.

(** X9. A log without a line that is not blank, starts with no sentinel
    prefix and has three fields or more (an empty file, say, or headers
    only) is read as the empty series; [main] then prints the diagnostic
    to stderr, returns 1 and leaves stdout and the images alone. *)
Theorem log_without_data_lines (w : env) (prog log_path out_path : string)
    (text : string) (o : io) :
  open_text w log_path = Ok text ->
  Forall (fun line => candidate line = false) (readlines text) ->
  read_log w log_path = Ok ([], [])
  /\ main w prog [log_path; out_path] o
     = (Ok 1, with_stderr o "No data points found.").
Proof.
  intros Hopen H.
  assert (Hread : read_log w log_path = Ok ([], [])).
  { rewrite (read_log_text w log_path text Hopen).
    now apply read_lines_no_candidate. }
  split; [exact Hread |]. now apply main_no_data.
Qed.

Lemma headers_only_no_candidate :
  Forall (fun line => candidate line = false)
         (readlines (newline ++ "[iostat] sda 1 2 3" ++ newline
                     ++ "time speed" ++ newline)%string).
Proof.
  apply Forall_forall. intros line Hin. apply negb_true_iff.
  revert line Hin.
  apply (proj1 (forallb_forall (fun l => negb (candidate l)) _)).
  vm_compute. reflexivity.
Qed.

Lemma log_without_data_lines_witness :
  read_log (one_file (newline ++ "[iostat] sda 1 2 3" ++ newline
                      ++ "time speed" ++ newline)%string) "bench.log"
  = Ok ([], [])
  /\ main (one_file (newline ++ "[iostat] sda 1 2 3" ++ newline
                     ++ "time speed" ++ newline)%string)
          "plot_benchmark.py" ["bench.log"; "out.jpg"] io0
     = (Ok 1, with_stderr io0 "No data points found.").
Proof.
  exact (log_without_data_lines
           (one_file (newline ++ "[iostat] sda 1 2 3" ++ newline
                      ++ "time speed" ++ newline)%string)
           "plot_benchmark.py" "bench.log" "out.jpg" _ io0
           eq_refl headers_only_no_candidate).
Defined.

(** ** Whole seconds are kept exactly *)

Lemma digits2_pos_size (p : positive) : digits2_pos p = Pos.size p.
Proof. induction p; simpl; congruence. Qed.

Lemma digits2_pos_bound (p : positive) :
  Zpos p < 2 ^ 53 -> Zpos (digits2_pos p) <= 53.
Proof.
  intros H. rewrite digits2_pos_size.
  pose proof (Pos.size_le p) as Hle.
  assert (H2 : 2 ^ Zpos (Pos.size p) <= 2 * Zpos p).
  { rewrite <- Pos2Z.inj_pow. change (2 * Zpos p) with (Zpos p~0).
    now apply Pos2Z.pos_le_pos. }
  assert (H3 : 2 ^ Zpos (Pos.size p) < 2 ^ 54).
  { change (2 ^ 54) with (2 * 2 ^ 53). lia. }
  apply Z.pow_lt_mono_r_iff in H3; lia.
Qed.

Lemma iter_xO_digits (p k : positive) :
  digits2_pos (Pos.iter xO p k) = (digits2_pos p + k)%positive.
Proof.
  induction k as [| k IH] using Pos.peano_ind.
  - simpl. now rewrite Pos.add_1_r.
  - rewrite Pos.iter_succ. simpl. rewrite IH. lia.
Qed.

Lemma iter_xO_value (p k : positive) :
  Zpos (Pos.iter xO p k) = Zpos p * 2 ^ Zpos k.
Proof.
  induction k as [| k IH] using Pos.peano_ind.
  - simpl. lia.
  - rewrite Pos.iter_succ, Pos2Z.inj_xO, IH, Pos2Z.inj_succ, Z.pow_succ_r by lia.
    ring.
Qed.

(** A mantissa of 53 bits with an exponent in range is kept as it is. *)
Lemma binary_round_aux_exact (m : positive) (e : Z) :
  Zpos (digits2_pos m) = 53 -> -1074 <= e <= 971 ->
  binary_round_aux PyFloat.prec PyFloat.emax false (Zpos m) e loc_Exact
  = S754_finite false m e.
Proof.
  intros Hd He.
  assert (Hs : shr_fexp PyFloat.prec PyFloat.emax (Zpos m) e loc_Exact
               = (Build_shr_record (Zpos m) false false, e)).
  { unfold shr_fexp, fexp, emin, PyFloat.prec, PyFloat.emax, Zdigits2.
    rewrite Hd.
    replace (Z.max (53 + e - 53) (3 - 1024 - 53) - e) with 0 by lia.
    reflexivity. }
  unfold binary_round_aux. rewrite Hs.
  cbn [shr_m loc_of_shr_record round_nearest_even]. rewrite Hs.
  cbn [shr_m]. unfold PyFloat.prec, PyFloat.emax.
  destruct (Z.leb_spec e (1024 - 53)); [reflexivity | lia].
Qed.

(** An integer below 2^53 is a float, and [int] gives it back. *)
Lemma binary_round_int (p : positive) :
  Zpos p < 2 ^ 53 ->
  PyFloat.int (binary_round PyFloat.prec PyFloat.emax false p 0) = Ok (Zpos p).
Proof.
  intros H. pose proof (digits2_pos_bound p H) as Hd.
  unfold binary_round, shl_align, fexp, emin.
  change PyFloat.prec with 53. change PyFloat.emax with 1024.
  replace (Z.max (Zpos (digits2_pos p) + 0 - 53) (3 - 1024 - 53))
    with (Zpos (digits2_pos p) - 53) by lia.
  destruct (Zpos (digits2_pos p) - 53 - 0) as [| k | k] eqn:Hk; try lia.
  - change 53 with PyFloat.prec at 1. change 1024 with PyFloat.emax.
    rewrite binary_round_aux_exact by lia.
    reflexivity.
  - change 53 with PyFloat.prec at 1. change 1024 with PyFloat.emax.
    rewrite binary_round_aux_exact.
    + cbn [PyFloat.int cond_Zopp]. f_equal.
      replace (Zpos (digits2_pos p) - 53) with (- Zpos k) by lia.
      rewrite Z.shiftl_opp_r, Z.shiftr_div_pow2, iter_xO_value by lia.
      apply Z.div_mul. apply Z.pow_nonzero; lia.
    + rewrite iter_xO_digits. lia.
    + lia.
Qed.

Lemma digit_not_space (c : ascii) :
  PyFloat.is_digit c = true -> PyFloat.float_space c = false.
Proof.
  destruct c as [[] [] [] [] [] [] [] []]; vm_compute; congruence.
Qed.

Lemma digit_not_underscore (c : ascii) :
  PyFloat.is_digit c = true -> Ascii.eqb c "_" = false.
Proof.
  destruct c as [[] [] [] [] [] [] [] []]; vm_compute; congruence.
Qed.

Lemma digit_no_sign (c : ascii) (r : string) :
  PyFloat.is_digit c = true ->
  PyFloat.take_sign (String c r) = (false, String c r).
Proof.
  destruct c as [[] [] [] [] [] [] [] []]; intros H;
    try reflexivity; vm_compute in H; discriminate.
Qed.

Lemma digit_val_range (c : ascii) :
  PyFloat.is_digit c = true ->
  0 <= PyFloat.digit_val c <= 9
  /\ (Ascii.eqb c "0" = false -> 1 <= PyFloat.digit_val c).
Proof.
  destruct c as [[] [] [] [] [] [] [] []]; intros H;
    vm_compute in H; try discriminate;
    vm_compute; repeat split; congruence.
Qed.

Lemma skip_zeros_cons (c : ascii) (r : string) :
  PyFloat.skip_zeros (String c r)
  = if Ascii.eqb c "0" then PyFloat.skip_zeros r else String c r.
Proof. destruct c as [[] [] [] [] [] [] [] []]; reflexivity. Qed.

Lemma rskip_digits (s : string) : digits_only s = true -> PyFloat.rskip s = s.
Proof.
  induction s as [| c r IH]; [reflexivity |].
  cbn [digits_only]. intros H. apply andb_true_iff in H. destruct H as [Hc Hr].
  cbn [PyFloat.rskip]. now rewrite (IH Hr), (digit_not_space c Hc).
Qed.

Lemma lskip_digits (s : string) : digits_only s = true -> PyFloat.lskip s = s.
Proof.
  destruct s as [| c r]; [reflexivity |].
  cbn [digits_only]. intros H. apply andb_true_iff in H. destruct H as [Hc _].
  cbn [PyFloat.lskip]. now rewrite (digit_not_space c Hc).
Qed.

Lemma strip_underscores_digits (s : string) :
  forall prev,
    Ascii.eqb prev "_" = false -> digits_only s = true ->
    PyFloat.strip_underscores prev s = Some s.
Proof.
  induction s as [| c r IH]; intros prev Hp; cbn [PyFloat.strip_underscores].
  - now rewrite Hp.
  - cbn [digits_only]. intros H. apply andb_true_iff in H.
    destruct H as [Hc Hr].
    rewrite (digit_not_underscore c Hc), Hp. cbn [andb].
    now rewrite (IH c (digit_not_underscore c Hc) Hr).
Qed.

Lemma span_digits_digits (s : string) :
  digits_only s = true -> PyFloat.span_digits s = (s, EmptyString).
Proof.
  induction s as [| c r IH]; [reflexivity |].
  cbn [digits_only]. intros H. apply andb_true_iff in H. destruct H as [Hc Hr].
  cbn [PyFloat.span_digits]. now rewrite Hc, (IH Hr).
Qed.

(** The value of a run of digits is at least the digits read so far,
    shifted. *)
Lemma digits_value_lower (s : string) :
  forall acc,
    0 <= acc -> digits_only s = true ->
    acc * 10 ^ PyFloat.len s <= PyFloat.digits_value acc s.
Proof.
  induction s as [| c r IH]; intros acc Ha.
  - intros _. cbn. lia.
  - cbn [digits_only]. intros H. apply andb_true_iff in H.
    destruct H as [Hc Hr].
    destruct (digit_val_range c Hc) as [Hv _].
    cbn [PyFloat.digits_value].
    assert (Hl : PyFloat.len (String c r) = Z.succ (PyFloat.len r)).
    { unfold PyFloat.len. cbn [String.length]. lia. }
    rewrite Hl, Z.pow_succ_r by (unfold PyFloat.len; lia).
    specialize (IH (10 * acc + PyFloat.digit_val c) ltac:(lia) Hr).
    assert (Hp : 0 <= 10 ^ PyFloat.len r) by (apply Z.pow_nonneg; lia).
    nia.
Qed.

Lemma skip_zeros_digits (s : string) :
  digits_only s = true ->
  digits_only (PyFloat.skip_zeros s) = true
  /\ PyFloat.digits_value 0 (PyFloat.skip_zeros s) = PyFloat.digits_value 0 s
  /\ match PyFloat.skip_zeros s with
     | String c _ => Ascii.eqb c "0" = false
     | EmptyString => True
     end.
Proof.
  induction s as [| c r IH]; [now repeat split |].
  cbn [digits_only]. intros H. apply andb_true_iff in H. destruct H as [Hc Hr].
  rewrite skip_zeros_cons. destruct (Ascii.eqb c "0") eqn:H0.
  - apply Ascii.eqb_eq in H0. subst c.
    destruct (IH Hr) as (A & B & C). now repeat split.
  - repeat split; [cbn [digits_only]; now rewrite Hc, Hr | exact H0].
Qed.

(** A number below 2^53 has few digits after its leading zeros. *)
Lemma significant_digits_bound (s : string) :
  digits_only s = true -> PyFloat.digits_value 0 s < 2 ^ 53 ->
  PyFloat.len (PyFloat.skip_zeros s) <= 16.
Proof.
  intros Hd Hv. destruct (skip_zeros_digits s Hd) as (Hz & Hval & Hhead).
  rewrite <- Hval in Hv.
  destruct (PyFloat.skip_zeros s) as [| c r]; [cbn; lia |].
  cbn [digits_only] in Hz. apply andb_true_iff in Hz. destruct Hz as [Hc Hr].
  destruct (digit_val_range c Hc) as [Hrange Hpos]. specialize (Hpos Hhead).
  cbn [PyFloat.digits_value] in Hv.
  pose proof (digits_value_lower r (10 * 0 + PyFloat.digit_val c)
                ltac:(lia) Hr) as Hlow.
  assert (Hp : 0 < 10 ^ PyFloat.len r)
    by (apply Z.pow_pos_nonneg; unfold PyFloat.len; lia).
  assert (H10 : 10 ^ PyFloat.len r < 10 ^ 16).
  { assert (2 ^ 53 < 10 ^ 16) by reflexivity. nia. }
  apply Z.pow_lt_mono_r_iff in H10; [| lia | lia].
  unfold PyFloat.len in *. cbn [String.length]. lia.
Qed.

Lemma digits_value_nonneg (s : string) :
  digits_only s = true -> 0 <= PyFloat.digits_value 0 s.
Proof.
  intros H. pose proof (digits_value_lower s 0 ltac:(lia) H). lia.
Qed.

(** [float] of a run of digits that stands for a number below 2^53 is
    that number. *)
Lemma float_of_digits (s : string) :
  all_digits s = true -> PyFloat.digits_value 0 s < 2 ^ 53 ->
  exists x,
    PyFloat.float s = Ok x /\ PyFloat.int x = Ok (PyFloat.digits_value 0 s).
Proof.
  unfold all_digits. intros H Hv. apply andb_true_iff in H.
  destruct H as [Hne Hd]. apply negb_true_iff in Hne.
  pose proof (significant_digits_bound s Hd Hv) as Hsig.
  pose proof (digits_value_nonneg s Hd) as Hnn.
  assert (Hs : PyFloat.strtod s
               = Some (PyFloat.decimal_value false (PyFloat.digits_value 0 s) 0,
                       EmptyString)).
  { unfold PyFloat.strtod.
    destruct s as [| c r]; [discriminate |].
    assert (Hc : PyFloat.is_digit c = true).
    { cbn [digits_only] in Hd. now apply andb_true_iff in Hd. }
    rewrite (digit_no_sign c r Hc), (span_digits_digits _ Hd).
    cbn [Str.is_empty andb].
    replace ((PyFloat.MAX_DIGITS
              <? (if Str.is_empty (PyFloat.skip_zeros (String c r))
                  then PyFloat.len (PyFloat.skip_zeros EmptyString)
                  else PyFloat.len (PyFloat.skip_zeros (String c r))
                       + PyFloat.len EmptyString))
             || (PyFloat.MAX_DIGITS <? PyFloat.len EmptyString))
      with false.
    - cbn [PyFloat.take_exponent]. now rewrite string_app_nil_r.
    - symmetry. apply orb_false_iff. split; [| reflexivity].
      apply Z.ltb_ge. unfold PyFloat.MAX_DIGITS.
      destruct (Str.is_empty (PyFloat.skip_zeros (String c r)));
        [cbn; lia |].
      change (PyFloat.len EmptyString) with 0. lia. }
  exists (PyFloat.decimal_value false (PyFloat.digits_value 0 s) 0). split.
  - unfold PyFloat.float, PyFloat.ascii_strtod.
    rewrite (lskip_digits s Hd), (rskip_digits s Hd),
      (strip_underscores_digits s "000" eq_refl Hd), Hs.
    reflexivity.
  - unfold PyFloat.decimal_value.
    destruct (PyFloat.digits_value 0 s) as [| p | p] eqn:E; try lia.
    + reflexivity.
    + unfold PyFloat.round_decimal. now apply binary_round_int.
Qed.

(** X10. A line the loop looks into whose field 0 is a plain run of
    decimal digits, for a number of seconds up to the end of the year
    9999, and whose field 2 is accepted by [float], yields a sample, and
    its time stamp is that of exactly this number of seconds: reading it
    as a float loses nothing. *)
Theorem whole_seconds_exact (line : string) :
  candidate line = true ->
  all_digits (field line 0) = true ->
  PyFloat.digits_value 0 (field line 0) <= MAX_TIMESTAMP ->
  numeric (field line 2) = true ->
  exists t v,
    utcfromtimestamp (PyFloat.digits_value 0 (field line 0)) = Ok t /\
    PyFloat.float (field line 2) = Ok v /\
    loop_body line = Append t v.
Proof.
  intros Hc Hd Hmax Hnum.
  assert (Hlt : PyFloat.digits_value 0 (field line 0) < 2 ^ 53).
  { unfold MAX_TIMESTAMP in Hmax.
    assert (253402300799 < 2 ^ 53) by reflexivity. lia. }
  destruct (float_of_digits _ Hd Hlt) as (x & Hx & Hint).
  assert (Hnn : 0 <= PyFloat.digits_value 0 (field line 0)).
  { apply digits_value_nonneg. unfold all_digits in Hd.
    now apply andb_true_iff in Hd. }
  destruct (proj2 (utcfromtimestamp_range
                     (PyFloat.digits_value 0 (field line 0))))
    as [t Ht]; [unfold MIN_TIMESTAMP; lia |].
  unfold numeric in Hnum.
  destruct (PyFloat.float (field line 2)) as [v | e] eqn:Hv; [| discriminate].
  exists t, v. repeat split; try assumption.
  now rewrite loop_body_eq, Hc, Hx, Hint, Hv, Ht.
Qed.

Lemma whole_seconds_exact_witness :
  exists t v,
    utcfromtimestamp (PyFloat.digits_value 0 (field "1700000000 x 12.5" 0))
    = Ok t /\
    PyFloat.float (field "1700000000 x 12.5" 2) = Ok v /\
    loop_body "1700000000 x 12.5" = Append t v.
Proof.
  apply (whole_seconds_exact "1700000000 x 12.5").
  - reflexivity.
  - reflexivity.
  - vm_compute. discriminate.
  - vm_compute. reflexivity.
Defined.
